(** * treenq: webhook pipeline and OAuth correlation flow

    A shallow embedding of the two Go files of package [domain]
    (the GitHub webhook handler with its event model, and the auth
    handlers) together with the properties the specification states
    about them.

    Conventions.
    - A Go [int] is a [Z]; no arithmetic is performed on identifiers.
    - A Go [string] is a [string]; [==] on strings is [String.eqb].
    - A Go slice is a [list]; the [nil] slice and the empty slice are
      both [[]] (the code only ranges over them).
    - A Go multiple return [(v, err)] is the pair [(v, err)] with
      [err : option error]; [None] is Go's [nil] error.
    - Every collaborator behind an interface field of [Handler] is a
      state transformer on an abstract world [W]; the handler's calls
      are recorded, in order, in a trace of [event]s. *)

From Stdlib Require Import ZArith String List Bool Lia.
From stdpp Require Import base strings gmap list.
Import ListNotations.

Local Open Scope string_scope.
Local Open Scope list_scope.
Local Open Scope Z_scope.

(** ** Go errors *)

(** [errors.New] allocates a fresh [*errorString]; two such values are
    equal only when they are the same allocation, which [addr] stands
    for.  [wrapError] is what [fmt.Errorf] with [%w] builds. *)
Inductive error : Type :=
| errorString (addr : positive) (s : string)
| wrapError (msg : string) (err : error).

Fixpoint error_eqb (a b : error) : bool :=
  match a, b with
  | errorString p s, errorString q t => Pos.eqb p q && String.eqb s t
  | wrapError m e, wrapError n f => String.eqb m n && error_eqb e f
  | _, _ => false
  end.

(** [err.Error()] *)
Definition Error (e : error) : string :=
  match e with
  | errorString _ s => s
  | wrapError msg _ => msg
  end.

(** [errors.Is(err, target)]: walks the [Unwrap] chain of [err]. *)
Fixpoint errors_Is (err target : error) : bool :=
  error_eqb err target ||
  match err with
  | errorString _ _ => false
  | wrapError _ inner => errors_Is inner target
  end.

(** [errors.Is] on a possibly nil error; a nil error is no target. *)
Definition errors_Is_opt (err : option error) (target : error) : bool :=
  match err with
  | None => false
  | Some e => errors_Is e target
  end.

(** [var ErrUserNotFound = errors.New("user not found")] *)
Definition ErrUserNotFound : error := errorString 1 "user not found".

(** ** Go durations and instants *)

(** The value an [int64] holds after an operation whose exact result
    is [z]: Go's integer arithmetic wraps around. *)
Definition wrap64 (z : Z) : Z := (z + 2 ^ 63) mod 2 ^ 64 - 2 ^ 63.

(** [time.Second], a [time.Duration]: an [int64] of nanoseconds. *)
Definition Second : Z := 1000000000.

(** [time.Duration(n) * time.Second] *)
Definition Duration_seconds (n : Z) : Z := wrap64 (n * Second).

(** A [time.Time] is kept as its nanoseconds since the epoch.
    [t.Add(d)] is then [t + d]: [Time] holds its seconds in an [int64]
    and a [Duration] is below 2^63 nanoseconds, some 292 years, so
    the addition is exact for every reading of a clock whose
    nanoseconds since the epoch fit in an [int64] (the years 1678 to
    2262).  [UTC] changes the location only. *)
Definition Time_Add (t d : Z) : Z := t + d.

(** ** Data model (webhook file) *)

Module Sender.
Record t := mk { Login : string }.
End Sender.

Module InstallationAccount.
Record t := mk { ID : Z; Type_ : string; Login : string }.
End InstallationAccount.

Module Installation.
Record t := mk { ID : Z; Account : InstallationAccount.t }.
End Installation.

Module Repository.
Record t := mk { ID : Z; CloneUrl : string; FullName : string; Private : bool }.
End Repository.

Module InstalledRepository.
Record t := mk { ID : Z; FullName : string; Private : bool; Branch : string }.

(** [fmt.Sprintf("https://github.com/%s.git", r.FullName)] *)
Definition CloneUrl (r : t) : string :=
  "https://github.com/" +:+ FullName r +:+ ".git".
End InstalledRepository.

Module GithubWebhookRequest.
Record t := mk {
  After : string;
  Installation : Installation.t;
  Sender : Sender.t;
  Action : string;
  Repositories : list InstalledRepository.t;
  RepositoriesAdded : list InstalledRepository.t;
  RepositoriesRemoved : list InstalledRepository.t;
  Ref : string;
  Repository : Repository.t
}.

Definition ReposToProcess (g : t) : list InstalledRepository.t :=
  if String.eqb (Action g) "created" then Repositories g
  else if String.eqb (Action g) "added" then RepositoriesAdded g
  else if String.eqb (Action g) "" then
    if negb (String.eqb (Ref g) "refs/heads/master")
       && negb (String.eqb (Ref g) "refs/heads/main")
    then []
    else [ InstalledRepository.mk
             (Repository.ID (Repository g))
             (Repository.FullName (Repository g))
             (Repository.Private (Repository g))
             "" ]
  else [].
End GithubWebhookRequest.

Module BuildArtifactRequest.
Record t := mk { Name : string; Path : string; Dockerfile : string; Tag : string }.
End BuildArtifactRequest.

Module Image.
Record t := mk { Registry : string; Repository : string; Tag : string }.

Definition Image (i : t) : string := Repository i +:+ ":" +:+ Tag i.

Definition FullPath (i : t) : string :=
  Registry i +:+ "/" +:+ Repository i +:+ ":" +:+ Tag i.
End Image.

Module vel.
Record Error := mkError { Code : string; Message : string }.
End vel.

Module AppDefinition.
(** [App] has the type [tqsdk.Space], declared in another package;
    the record is parametric in it.  [CreatedAt] is a [time.Time],
    kept as seconds; the handler never sets it. *)
Record t (Space : Type) := mk {
  ID : string;
  AppID : string;
  App : Space;
  Tag : string;
  Sha : string;
  User : string;
  CreatedAt : Z
}.
Arguments mk {Space}.
Arguments ID {Space}.
Arguments AppID {Space}.
Arguments App {Space}.
Arguments Tag {Space}.
Arguments Sha {Space}.
Arguments User {Space}.
Arguments CreatedAt {Space}.
End AppDefinition.

(** The two fields of [tqsdk.Space] the handler reads:
    [appSpace.Service.Name] and [appSpace.Service.DockerfilePath]. *)
Class SpaceFields (Space : Type) := {
  Service_Name : Space -> string;
  Service_DockerfilePath : Space -> string
}.

(** ** Data model (auth file) *)

Module UserInfo.
Record t := mk { ID : string; Email : string; DisplayName : string }.
End UserInfo.

Module TokenPair.
(** [ExpiresIn] is a [time.Time], kept as nanoseconds since the epoch. *)
Record t := mk { AccessToken : string; RefreshToken : string; ExpiresIn : Z }.
End TokenPair.

Module GithubTokenResponse.
Record t := mk { AccessToken : string; RefreshToken : string; ExpiresIn : Z }.
End GithubTokenResponse.

(** [url.Values], the type of [r.URL.Query()]. *)
Abbreviation Values := (gmap string (list string)).

(** [Values.Get]: the first value of the key, or the empty string when
    the key is absent or has no value. *)
Definition Values_Get (v : Values) (key : string) : string :=
  match v !! key with
  | Some (x :: _) => x
  | _ => ""
  end.

(** What a handler has written to its [http.ResponseWriter]. *)
Module Response.
Record t := mk { StatusCode : Z; Body : string }.
End Response.

Definition StatusOK : Z := 200.
Definition StatusBadRequest : Z := 400.
Definition StatusInternalServerError : Z := 500.

(** [http.Error(w, msg, code)] *)
Definition http_Error (msg : string) (code : Z) : Response.t :=
  Response.mk code (msg +:+ String (Ascii.ascii_of_nat 10) "").

(** [w.WriteHeader(code)] *)
Definition WriteHeader (code : Z) : Response.t := Response.mk code "".

(** The part of [*http.Request] the handlers read: [r.URL.Query()]. *)
Module Request.
Record t := mk { Query : Values }.
End Request.

(** The response of [http.DefaultClient.Do], with its body already read. *)
Module HttpResponse.
Record t := mk { StatusCode : Z; Status : string; Body : string }.
End HttpResponse.

(** ** Execution model *)

Section Model.
Context {W Space KubeDef : Type} `{SpaceFields Space}.

(** One entry per call the handlers make to a collaborator, with the
    arguments passed and the result received. *)
Inductive event : Type :=
| EvLinkGithub (installationID : Z) (login : string)
    (repos : list InstalledRepository.t) (err : option error)
| EvIssueAccessToken (installationID : Z) (res : string * option error)
| EvClone (url : string) (installationID repoID : Z) (token : string)
    (res : string * option error)
| EvRemoveAll (path : string)
| EvOpen (res : string * option error)
| EvClose (id : string)
| EvExtractConfig (id dir : string) (res : Space * option error)
| EvBuild (req : BuildArtifactRequest.t) (res : Image.t * option error)
| EvSaveDeployment (def : AppDefinition.t Space)
    (res : AppDefinition.t Space * option error)
| EvDefineApp (id : string) (app : Space) (image : Image.t) (res : KubeDef)
| EvApply (kubeConfig : string) (def : KubeDef) (err : option error)
| EvAuthStateExists (state : string) (res : string * option error)
| EvHttpDo (method url : string) (res : HttpResponse.t * option error)
| EvNow (t : Z)
| EvSaveTokenPair (email token : string) (err : option error)
| EvGetIdpUser (intent token : string) (res : UserInfo.t * option error)
| EvGetUserByEmail (email : string) (res : UserInfo.t * option error)
| EvCreateUser (user : UserInfo.t) (res : UserInfo.t * option error)
| EvLogin (id intent token : string)
| EvErrorContext (msg : string) (args : list (string * string)).

(** A Go function body: it reads and changes the world and leaves
    the trace of the calls it made. *)
Definition M (A : Type) : Type := W -> A * W * list event.

#[global] Instance M_ret : MRet M := fun A a w => (a, w, []).

#[global] Instance M_bind : MBind M := fun A B f m w =>
  let '(a, w1, t1) := m w in
  let '(b, w2, t2) := f a w1 in
  (b, w2, t1 ++ t2).

(** A call to a collaborator [f], recorded as [ev result]. *)
Definition call {A : Type} (f : W -> A * W) (ev : A -> event) : M A :=
  fun w => let '(a, w') := f w in (a, w', [ev a]).

(** *** The interfaces behind the fields of [Handler] *)

Record Database := {
  LinkGithub : Z -> string -> list InstalledRepository.t -> W -> option error * W;
  SaveDeployment : AppDefinition.t Space -> W ->
                   (AppDefinition.t Space * option error) * W;
  AuthStateExists : string -> W -> (string * option error) * W;
  SaveTokenPair : string -> string -> W -> option error * W
}.

Record GithubClient := {
  IssueAccessToken : Z -> W -> (string * option error) * W
}.

Record Git := {
  Clone : string -> Z -> Z -> string -> W -> (string * option error) * W
}.

Record Extractor := {
  Open : W -> (string * option error) * W;
  Close : string -> W -> unit * W;
  ExtractConfig : string -> string -> W -> (Space * option error) * W
}.

Record Docker := {
  Build : BuildArtifactRequest.t -> W -> (Image.t * option error) * W
}.

Record Kube := {
  DefineApp : string -> Space -> Image.t -> W -> KubeDef * W;
  Apply : string -> KubeDef -> W -> option error * W
}.

Record AuthService := {
  GetIdpUser : string -> string -> W -> (UserInfo.t * option error) * W;
  GetUserByEmail : string -> W -> (UserInfo.t * option error) * W;
  CreateUser : UserInfo.t -> W -> (UserInfo.t * option error) * W;
  Login : string -> string -> string -> W -> unit * W
}.

Record Logger := {
  ErrorContext : string -> list (string * string) -> W -> unit * W
}.

Record Handler := {
  db : Database;
  githubClient : GithubClient;
  git : Git;
  extractor : Extractor;
  docker : Docker;
  kube : Kube;
  kubeConfig : string;
  authService : AuthService;
  l : Logger;
  githubClientID : string;
  githubSecret : string
}.

(** The functions of Go's standard library the handlers call. *)
Record Runtime := {
  os_RemoveAll : string -> W -> unit * W;
  filepath_Join : string -> string -> string;
  url_Encode : list (string * string) -> string;
  http_NewRequest : string -> string -> option error;
  http_Do : string -> string -> list (string * string) -> W ->
            (HttpResponse.t * option error) * W;
  json_Decode : string -> GithubTokenResponse.t * option error;
  time_Now : W -> Z * W
}.

Variable h : Handler.
Variable rt : Runtime.

(** *** GithubWebhook *)

(** [&vel.Error{Code: "UNKNOWN", Message: err.Error()}] *)
Definition UNKNOWN (err : error) : vel.Error :=
  vel.mkError "UNKNOWN" (Error err).

(** A call registered with [defer]; its arguments are evaluated when
    it is registered. *)
Inductive deferred : Type :=
| DeferRemoveAll (repoDir : string)
| DeferClose (extractorID : string).

Definition runDeferred (d : deferred) : M unit :=
  match d with
  | DeferRemoveAll repoDir => call (os_RemoveAll rt repoDir) (fun _ => EvRemoveAll repoDir)
  | DeferClose extractorID => call (Close (extractor h) extractorID) (fun _ => EvClose extractorID)
  end.

(** The deferred calls run when the function returns, last
    registered first; [ds] is the stack, most recent at the head. *)
Fixpoint runDefers (ds : list deferred) : M unit :=
  match ds with
  | [] => mret tt
  | d :: ds' => _ ← runDeferred d; runDefers ds'
  end.

(** The body of the [for] loop for one [repo].  [ds] is the stack of
    deferred calls of the enclosing function.  The result [Some e]
    is a [return] of the function with error [e]; [None] is the end
    of the body, after which the loop goes on. *)
Definition pipeline (req : GithubWebhookRequest.t) (repo : InstalledRepository.t)
    (ds : list deferred) : M (list deferred * option vel.Error) :=
  let installationID := Installation.ID (GithubWebhookRequest.Installation req) in
  '(token, err) ←
    (if InstalledRepository.Private repo
     then call (IssueAccessToken (githubClient h) installationID)
               (EvIssueAccessToken installationID)
     else mret ("", None));
  match err with Some e => mret (ds, Some (UNKNOWN e)) | None =>
  let url := InstalledRepository.CloneUrl repo in
  let repoID := InstalledRepository.ID repo in
  '(repoDir, err) ← call (Clone (git h) url installationID repoID token)
                         (EvClone url installationID repoID token);
  match err with Some e => mret (ds, Some (UNKNOWN e)) | None =>
  let ds := DeferRemoveAll repoDir :: ds in
  '(extractorID, err) ← call (Open (extractor h)) EvOpen;
  match err with Some e => mret (ds, Some (UNKNOWN e)) | None =>
  let ds := DeferClose extractorID :: ds in
  '(appSpace, err) ← call (ExtractConfig (extractor h) extractorID repoDir)
                          (EvExtractConfig extractorID repoDir);
  match err with Some e => mret (ds, Some (UNKNOWN e)) | None =>
  let dockerFilePath := filepath_Join rt repoDir (Service_DockerfilePath appSpace) in
  let breq := BuildArtifactRequest.mk (Service_Name appSpace) repoDir dockerFilePath "latest" in
  '(image, err) ← call (Build (docker h) breq) (EvBuild breq);
  match err with Some e => mret (ds, Some (UNKNOWN e)) | None =>
  let def := AppDefinition.mk "" "" appSpace (Image.Tag image)
               (GithubWebhookRequest.After req)
               (Sender.Login (GithubWebhookRequest.Sender req)) 0 in
  '(appDef, err) ← call (SaveDeployment (db h) def) (EvSaveDeployment def);
  match err with Some e => mret (ds, Some (UNKNOWN e)) | None =>
  appKubeDef ← call (DefineApp (kube h) (AppDefinition.ID appDef) appSpace image)
                    (EvDefineApp (AppDefinition.ID appDef) appSpace image);
  err ← call (Apply (kube h) (kubeConfig h) appKubeDef)
             (EvApply (kubeConfig h) appKubeDef);
  match err with Some e => mret (ds, Some (UNKNOWN e)) | None =>
  mret (ds, None)
  end end end end end end end.

(** [for _, repo := range repos { ... }]: a [return] inside the body
    leaves the loop and the function. *)
Fixpoint rangeRepos (req : GithubWebhookRequest.t) (repos : list InstalledRepository.t)
    (ds : list deferred) : M (list deferred * option vel.Error) :=
  match repos with
  | [] => mret (ds, None)
  | repo :: rest =>
      '(ds', r) ← pipeline req repo ds;
      match r with
      | Some e => mret (ds', Some e)
      | None => rangeRepos req rest ds'
      end
  end.

(** The first statement of [GithubWebhook]: the installation link
    is saved when the action is ["created"]; the result is the
    [err] of [LinkGithub], [nil] when it is not called. *)
Definition linkInstallation (req : GithubWebhookRequest.t) : M (option error) :=
  let installationID := Installation.ID (GithubWebhookRequest.Installation req) in
  let login := Sender.Login (GithubWebhookRequest.Sender req) in
  let repos := GithubWebhookRequest.Repositories req in
  if String.eqb (GithubWebhookRequest.Action req) "created"
  then call (LinkGithub (db h) installationID login repos)
            (EvLinkGithub installationID login repos)
  else mret None.

(** The handler returns [(GithubWebhookResponse{}, err)]; the
    response is the empty struct, so only [err] is kept.  The
    [return] after a failed link comes before any [defer]. *)
Definition GithubWebhook (req : GithubWebhookRequest.t) : M (option vel.Error) :=
  err ← linkInstallation req;
  match err with
  | Some e => mret (Some (UNKNOWN e))
  | None =>
      '(ds, r) ← rangeRepos req (GithubWebhookRequest.ReposToProcess req) [];
      _ ← runDefers ds;
      mret r
  end.

(** *** The auth handlers *)

(** [fmt.Errorf] without [%w] allocates a new error; its address is
    not that of any package-level error value. *)
Definition fmt_Errorf (msg : string) : error := errorString 2 msg.

Definition noTokenPair : TokenPair.t := TokenPair.mk "" "" 0.

(** The keys of [q] are set in sorted order, the order [Encode]
    writes them in.  The deferred [resp.Body.Close()] has no effect
    the handlers observe and is left out. *)
Definition exchangeCodeForToken (code : string) : M (TokenPair.t * option error) :=
  let q := [("client_id", githubClientID h);
            ("client_secret", githubSecret h);
            ("code", code)] in
  let urlStr := "https://github.com/login/oauth/access_token" +:+ "?" +:+ url_Encode rt q in
  match http_NewRequest rt "POST" urlStr with
  | Some e => mret (noTokenPair, Some e)
  | None =>
  '(resp, err) ← call (http_Do rt "POST" urlStr [("Accept", "application/json")])
                      (EvHttpDo "POST" urlStr);
  match err with Some e => mret (noTokenPair, Some e) | None =>
  if negb (HttpResponse.StatusCode resp =? StatusOK)
  then mret (noTokenPair,
             Some (fmt_Errorf ("failed to exchange code for token: "
                               +:+ HttpResponse.Status resp)))
  else
  let '(result, err) := json_Decode rt (HttpResponse.Body resp) in
  match err with Some e => mret (noTokenPair, Some e) | None =>
  now ← call (time_Now rt) EvNow;
  mret (TokenPair.mk (GithubTokenResponse.AccessToken result)
                     (GithubTokenResponse.RefreshToken result)
                     (Time_Add
                        (Time_Add now
                           (Duration_seconds (GithubTokenResponse.ExpiresIn result)))
                        (wrap64 (Second * -10))),
        None)
  end end end.

Definition GithubCallbackHandler (r : Request.t) : M Response.t :=
  let code := Values_Get (Request.Query r) "code" in
  if String.eqb code "" then mret (http_Error "Code not found" StatusBadRequest) else
  let state := Values_Get (Request.Query r) "state" in
  if String.eqb state "" then mret (http_Error "State not found" StatusBadRequest) else
  '(email, err) ← call (AuthStateExists (db h) state) (EvAuthStateExists state);
  match err with
  | Some _ => mret (http_Error "State not found" StatusBadRequest)
  | None =>
  '(tokenPair, err) ← exchangeCodeForToken code;
  match err with
  | Some _ => mret (http_Error "Failed to exchange code for token" StatusInternalServerError)
  | None =>
  err ← call (SaveTokenPair (db h) email (TokenPair.AccessToken tokenPair))
             (EvSaveTokenPair email (TokenPair.AccessToken tokenPair));
  match err with
  | Some _ => mret (http_Error "Failed to save token pair" StatusInternalServerError)
  | None => mret (WriteHeader StatusOK)
  end end end.

(** [h.l.ErrorContext(r.Context(), msg, "err", err.Error(), "intent", intent)] *)
Definition logError (msg : string) (e : error) (intent : string) : M unit :=
  let args := [("err", Error e); ("intent", intent)] in
  call (ErrorContext (l h) msg args) (fun _ => EvErrorContext msg args).

(** [h.authService.Login(user.ID, intent, token)], the last statement
    of [HandleLoginSuccess]; nothing is written to the response. *)
Definition establishSession (user : UserInfo.t) (intent token : string)
    : M (option Response.t) :=
  _ ← call (Login (authService h) (UserInfo.ID user) intent token)
           (fun _ => EvLogin (UserInfo.ID user) intent token);
  mret None.

(** The result is what was written to [w]: [None] when the handler
    returns without writing.  The variable [user] of the source is
    assigned three times; each assignment rebinds [user] here. *)
Definition HandleLoginSuccess (r : Request.t) : M (option Response.t) :=
  let q := Request.Query r in
  let intent := Values_Get q "id" in
  let token := Values_Get q "token" in
  '(user, err) ← call (GetIdpUser (authService h) intent token)
                      (EvGetIdpUser intent token);
  match err with
  | Some e =>
      _ ← logError "failed to get user" e intent;
      mret (Some (WriteHeader 400))
  | None =>
  '(user, err) ← call (GetUserByEmail (authService h) (UserInfo.Email user))
                      (EvGetUserByEmail (UserInfo.Email user));
  let afterLookup : M (option Response.t) :=
    if errors_Is_opt err ErrUserNotFound then
      '(user, err) ← call (CreateUser (authService h) user) (EvCreateUser user);
      match err with
      | Some e =>
          _ ← logError "failed to create user" e intent;
          mret (Some (WriteHeader 400))
      | None => establishSession user intent token
      end
    else establishSession user intent token in
  match err with
  | Some e =>
      if negb (errors_Is e ErrUserNotFound) then
        _ ← logError "failed to get user" e intent;
        mret (Some (WriteHeader 400))
      else afterLookup
  | None => afterLookup
  end
  end.
End Model.

Arguments event : clear implicits.
Arguments M : clear implicits.
Arguments Database : clear implicits.
Arguments GithubClient : clear implicits.
Arguments Git : clear implicits.
Arguments Extractor : clear implicits.
Arguments Docker : clear implicits.
Arguments Kube : clear implicits.
Arguments AuthService : clear implicits.
Arguments Logger : clear implicits.
Arguments Handler : clear implicits.
Arguments Runtime : clear implicits.

(** ** Observations on traces *)

Section Observations.
Context {Space KubeDef : Type}.
Local Abbreviation event := (event Space KubeDef).

(** The working directories obtained from successful clones. *)
Definition acquiredDirs (tr : list event) : list string :=
  omap (fun e => match e with
                 | EvClone _ _ _ _ (dir, None) => Some dir
                 | _ => None
                 end) tr.

(** The directories passed to [os.RemoveAll]. *)
Definition removedDirs (tr : list event) : list string :=
  omap (fun e => match e with EvRemoveAll dir => Some dir | _ => None end) tr.

(** The extractor sessions obtained from successful [Open]s. *)
Definition openedSessions (tr : list event) : list string :=
  omap (fun e => match e with EvOpen (id, None) => Some id | _ => None end) tr.

(** The sessions passed to [Close]. *)
Definition closedSessions (tr : list event) : list string :=
  omap (fun e => match e with EvClose id => Some id | _ => None end) tr.

(** The directories, and the sessions, of a stack of deferred calls. *)
Definition deferredDirs (ds : list deferred) : list string :=
  omap (fun d => match d with DeferRemoveAll dir => Some dir | _ => None end) ds.

Definition deferredSessions (ds : list deferred) : list string :=
  omap (fun d => match d with DeferClose id => Some id | _ => None end) ds.

Definition isRelease (e : event) : bool :=
  match e with EvRemoveAll _ | EvClose _ => true | _ => false end.

Definition isClone (e : event) : bool :=
  match e with EvClone _ _ _ _ _ => true | _ => false end.

(** Every working directory is removed by the time the processing
    of its repository has ended: whenever a clone starts, the
    directories acquired before it have all been removed. *)
Definition removedWhenProcessingEnds (tr : list event) : Prop :=
  forall pre e post,
    tr = pre ++ e :: post -> isClone e = true ->
    Permutation (removedDirs pre) (acquiredDirs pre).

(** The repository ids for which a clone was attempted. *)
Definition clonedRepos (tr : list event) : list Z :=
  omap (fun e => match e with EvClone _ _ id _ _ => Some id | _ => None end) tr.

(** A step of the deployment pipeline (token issuance, clone,
    extract, build, persist, deploy). *)
Definition isPipelineStep (e : event) : bool :=
  match e with
  | EvIssueAccessToken _ _ | EvClone _ _ _ _ _ | EvOpen _
  | EvExtractConfig _ _ _ | EvBuild _ _ | EvSaveDeployment _ _
  | EvDefineApp _ _ _ _ | EvApply _ _ _ => true
  | _ => false
  end.

Definition isLinkGithub (e : event) : bool :=
  match e with EvLinkGithub _ _ _ _ => true | _ => false end.

(** The state values an [AuthStateExists] call accepted. *)
Definition validatedStates (tr : list event) : list string :=
  omap (fun e => match e with
                 | EvAuthStateExists s (_, None) => Some s
                 | _ => None
                 end) tr.

Definition isAuthStateExists (e : event) : bool :=
  match e with EvAuthStateExists _ _ => true | _ => false end.

Definition isHttpDo (e : event) : bool :=
  match e with EvHttpDo _ _ _ => true | _ => false end.

(** The definitions handed to [SaveDeployment]. *)
Definition savedDeployments (tr : list event) : list (AppDefinition.t Space) :=
  omap (fun e => match e with EvSaveDeployment def _ => Some def | _ => None end) tr.

(** A saved definition names the sender and the commit of the event. *)
Definition carriesEvent (req : GithubWebhookRequest.t) (d : AppDefinition.t Space) : Prop :=
  AppDefinition.User d = Sender.Login (GithubWebhookRequest.Sender req) /\
  AppDefinition.Sha d = GithubWebhookRequest.After req.

(** The users handed to [CreateUser]. *)
Definition createdFrom (tr : list event) : list UserInfo.t :=
  omap (fun e => match e with EvCreateUser u _ => Some u | _ => None end) tr.

(** The sessions established: [(user id, intent, token)]. *)
Definition sessions (tr : list event) : list (string * string * string) :=
  omap (fun e => match e with
                 | EvLogin id intent token => Some (id, intent, token)
                 | _ => None
                 end) tr.
End Observations.

(** ** The auth-state store *)

Module AuthState.
Record t := mk { Email : string; ExpiresAt : Z }.
End AuthState.

Abbreviation AuthStates := (gmap string AuthState.t).

(** The error a rejected state value is reported with. *)
Definition ErrInvalidState : error := errorString 3 "invalid state".

Section SpecDB.
Context {W Space KubeDef : Type}.

(** The time the store checks validity windows against. *)
Variable clock : W -> Z.

(** Modelled from the spec: the persistence layer's implementation
    of [AuthStateExists], which is not among the source files (only
    its caller [GithubCallbackHandler] is).  The spec gives its
    contract as [ConsumeAuthState(state) -> (email,
    error-if-invalid-or-expired)]: an [AuthState] correlates a state
    token to an email with a validity window; a lookup of an absent,
    expired or already consumed state fails; a successful lookup
    consumes the state and yields the associated email. *)
Definition ConsumeAuthState (state : string) (σ : AuthStates * W)
    : (string * option error) * (AuthStates * W) :=
  match σ.1 !! state with
  | Some a =>
      if clock σ.2 <=? AuthState.ExpiresAt a
      then ((AuthState.Email a, None), (delete state σ.1, σ.2))
      else (("", Some ErrInvalidState), σ)
  | None => (("", Some ErrInvalidState), σ)
  end.

(** A collaborator that knows nothing of the auth-state store. *)
Definition onWorld {A : Type} (f : W -> A * W) (σ : AuthStates * W)
    : A * (AuthStates * W) :=
  ((f σ.2).1, (σ.1, (f σ.2).2)).

(** The handler [h0] with its [db.AuthStateExists] bound to
    [ConsumeAuthState]; every other collaborator is the one of [h0]
    and leaves the auth-state store alone. *)
Definition withAuthStates (h0 : Handler W Space KubeDef)
    : Handler (AuthStates * W) Space KubeDef :=
  {| db := {| LinkGithub := fun i l rs => onWorld (LinkGithub (db h0) i l rs);
              SaveDeployment := fun d => onWorld (SaveDeployment (db h0) d);
              AuthStateExists := ConsumeAuthState;
              SaveTokenPair := fun e t => onWorld (SaveTokenPair (db h0) e t) |};
     githubClient :=
       {| IssueAccessToken := fun i => onWorld (IssueAccessToken (githubClient h0) i) |};
     git := {| Clone := fun u i r t => onWorld (Clone (git h0) u i r t) |};
     extractor := {| Open := onWorld (Open (extractor h0));
                     Close := fun i => onWorld (Close (extractor h0) i);
                     ExtractConfig := fun i d => onWorld (ExtractConfig (extractor h0) i d) |};
     docker := {| Build := fun r => onWorld (Build (docker h0) r) |};
     kube := {| DefineApp := fun i a im => onWorld (DefineApp (kube h0) i a im);
                Apply := fun c d => onWorld (Apply (kube h0) c d) |};
     kubeConfig := kubeConfig h0;
     authService :=
       {| GetIdpUser := fun i t => onWorld (GetIdpUser (authService h0) i t);
          GetUserByEmail := fun e => onWorld (GetUserByEmail (authService h0) e);
          CreateUser := fun u => onWorld (CreateUser (authService h0) u);
          Login := fun u i t => onWorld (Login (authService h0) u i t) |};
     l := {| ErrorContext := fun m a => onWorld (ErrorContext (l h0) m a) |};
     githubClientID := githubClientID h0;
     githubSecret := githubSecret h0 |}.

Definition liftRuntime (rt0 : Runtime W) : Runtime (AuthStates * W) :=
  {| os_RemoveAll := fun p => onWorld (os_RemoveAll rt0 p);
     filepath_Join := filepath_Join rt0;
     url_Encode := url_Encode rt0;
     http_NewRequest := http_NewRequest rt0;
     http_Do := fun m u hd => onWorld (http_Do rt0 m u hd);
     json_Decode := json_Decode rt0;
     time_Now := onWorld (time_Now rt0) |}.
End SpecDB.

(** Callbacks delivered one after the other to the same handler. *)
Fixpoint serveCallbacks {W Space KubeDef : Type} (h : Handler W Space KubeDef)
    (rt : Runtime W) (rs : list Request.t) : M W Space KubeDef (list Response.t) :=
  match rs with
  | [] => mret []
  | r :: rs' =>
      resp ← GithubCallbackHandler h rt r;
      resps ← serveCallbacks h rt rs';
      mret (resp :: resps)
  end.

(** ** Scenarios

    Concrete collaborators for the end-to-end scenarios of the
    specification: every call succeeds, except the clone of
    [o/broken], the link of sender [mallory] and the local lookup of
    any email, which reports [ErrUserNotFound]. *)

Module Scenario.
Record Space := mkSpace { Name : string; DockerfilePath : string }.

#[global] Instance Space_fields : SpaceFields Space :=
  {| Service_Name := Name; Service_DockerfilePath := DockerfilePath |}.

Definition errClone : error := errorString 10 "clone failed".
Definition errLink : error := errorString 11 "link failed".

Definition handler : Handler unit Space string :=
  {| db := {| LinkGithub := fun _ login _ w =>
                (if String.eqb login "mallory" then Some errLink else None, w);
              SaveDeployment := fun d w =>
                ((AppDefinition.mk "app-1" (AppDefinition.AppID d) (AppDefinition.App d)
                    (AppDefinition.Tag d) (AppDefinition.Sha d) (AppDefinition.User d)
                    (AppDefinition.CreatedAt d), None), w);
              AuthStateExists := fun _ w => (("", Some ErrInvalidState), w);
              SaveTokenPair := fun _ _ w => (None, w) |};
     githubClient := {| IssueAccessToken := fun _ w => (("ghs_token", None), w) |};
     git := {| Clone := fun url _ _ _ w =>
                 if String.eqb url "https://github.com/o/broken.git"
                 then (("", Some errClone), w)
                 else (("/tmp/" +:+ url, None), w) |};
     extractor := {| Open := fun w => (("session", None), w);
                     Close := fun _ w => (tt, w);
                     ExtractConfig := fun _ _ w => ((mkSpace "svc" "Dockerfile", None), w) |};
     docker := {| Build := fun r w =>
                    ((Image.mk "registry" (BuildArtifactRequest.Name r)
                        (BuildArtifactRequest.Tag r), None), w) |};
     kube := {| DefineApp := fun id _ image w => (id +:+ "=" +:+ Image.Image image, w);
                Apply := fun _ _ w => (None, w) |};
     kubeConfig := "kubeconfig";
     authService :=
       {| GetIdpUser := fun _ _ w =>
            ((UserInfo.mk "idp-42" "alice@example.com" "Alice", None), w);
          GetUserByEmail := fun _ w => ((UserInfo.mk "" "" "", Some ErrUserNotFound), w);
          CreateUser := fun u w =>
            ((UserInfo.mk ("local-" +:+ UserInfo.ID u) (UserInfo.Email u)
                (UserInfo.DisplayName u), None), w);
          Login := fun _ _ _ w => (tt, w) |};
     l := {| ErrorContext := fun _ _ w => (tt, w) |};
     githubClientID := "client-id";
     githubSecret := "client-secret" |}.

Definition runtime : Runtime unit :=
  {| os_RemoveAll := fun _ w => (tt, w);
     filepath_Join := fun a b => a +:+ "/" +:+ b;
     url_Encode := fun q => "code";
     http_NewRequest := fun _ _ => None;
     http_Do := fun _ _ _ w => ((HttpResponse.mk 200 "200 OK" "{}", None), w);
     json_Decode := fun _ => (GithubTokenResponse.mk "gho_access" "ghr_refresh" 3600, None);
     time_Now := fun w => (1000, w) |}.

Definition installation : Installation.t :=
  Installation.mk 7 (InstallationAccount.mk 70 "User" "alice").

Definition noRepository : Repository.t := Repository.mk 0 "" "" false.

Definition repo1 : InstalledRepository.t := InstalledRepository.mk 1 "o/r" false "".
Definition repo2 : InstalledRepository.t := InstalledRepository.mk 2 "o/r2" true "".
Definition broken : InstalledRepository.t := InstalledRepository.mk 3 "o/broken" false "".

(** Scenario 1: an installation is created with one public repository. *)
Definition created : GithubWebhookRequest.t :=
  GithubWebhookRequest.mk "" installation (Sender.mk "alice") "created"
    [repo1] [] [] "" noRepository.

(** Scenario 2: a push to [main] of a private repository. *)
Definition push : GithubWebhookRequest.t :=
  GithubWebhookRequest.mk "abc123" installation (Sender.mk "alice") ""
    [] [] [] "refs/heads/main" (Repository.mk 2 "" "o/r2" true).

(** Two public repositories are added; both pipelines succeed. *)
Definition added : GithubWebhookRequest.t :=
  GithubWebhookRequest.mk "" installation (Sender.mk "alice") "added"
    [] [repo1; InstalledRepository.mk 4 "o/r4" false ""] [] "" noRepository.

(** Two repositories are added; the clone of the first one fails. *)
Definition addedBroken : GithubWebhookRequest.t :=
  GithubWebhookRequest.mk "" installation (Sender.mk "alice") "added"
    [] [broken; repo1] [] "" noRepository.

(** An installation is created by a sender whose link write fails. *)
Definition createdUnlinked : GithubWebhookRequest.t :=
  GithubWebhookRequest.mk "" installation (Sender.mk "mallory") "created"
    [repo1] [] [] "" noRepository.

(** A callback carrying [code] and [state]. *)
Definition callback (code state : string) : Request.t :=
  Request.mk (<["code" := [code]]> (<["state" := [state]]> ∅)).

(** A callback without the [state] parameter. *)
Definition callbackNoState : Request.t :=
  Request.mk (<["code" := ["c0de"]]> ∅).

Definition loginSuccess : Request.t :=
  Request.mk (<["id" := ["intent-1"]]> (<["token" := ["tok-1"]]> ∅)).

Definition authStates : AuthStates :=
  <["s-1" := AuthState.mk "alice@example.com" 100]> ∅.
End Scenario.

(** ** Further observations on traces *)

Section MoreObservations.
Context {Space KubeDef : Type}.
Local Abbreviation event := (event Space KubeDef).

(** The installation ids access tokens were requested for. *)
Definition tokenIssues (tr : list event) : list Z :=
  omap (fun e => match e with EvIssueAccessToken i _ => Some i | _ => None end) tr.

(** The event a deferred call leaves when it runs. *)
Definition releaseEvent (d : deferred) : event :=
  match d with
  | DeferRemoveAll repoDir => EvRemoveAll repoDir
  | DeferClose extractorID => EvClose extractorID
  end.

(** In a stack of deferred calls, every close of a session sits
    right above the removal of a directory. *)
Fixpoint closeAboveRemoval (ds : list deferred) : Prop :=
  match ds with
  | [] => True
  | DeferClose _ :: rest =>
      match rest with
      | DeferRemoveAll _ :: _ => closeAboveRemoval rest
      | _ => False
      end
  | DeferRemoveAll _ :: rest => closeAboveRemoval rest
  end.

(** The [(email, token)] pairs handed to [SaveTokenPair]. *)
Definition savedTokens (tr : list event) : list (string * string) :=
  omap (fun e => match e with
                 | EvSaveTokenPair email token _ => Some (email, token)
                 | _ => None
                 end) tr.

(** The [(method, url)] pairs of the HTTP requests sent. *)
Definition httpRequests (tr : list event) : list (string * string) :=
  omap (fun e => match e with EvHttpDo m u _ => Some (m, u) | _ => None end) tr.

(** The error entries written to the log: message and arguments. *)
Definition logged (tr : list event) : list (string * list (string * string)) :=
  omap (fun e => match e with EvErrorContext msg args => Some (msg, args) | _ => None end) tr.

(** The error a step of the deployment pipeline returned. *)
Definition stepError (e : event) : option error :=
  match e with
  | EvIssueAccessToken _ (_, err) => err
  | EvClone _ _ _ _ (_, err) => err
  | EvOpen (_, err) => err
  | EvExtractConfig _ _ (_, err) => err
  | EvBuild _ (_, err) => err
  | EvSaveDeployment _ (_, err) => err
  | EvApply _ _ err => err
  | _ => None
  end.

(** The error a call to the auth service returned. *)
Definition callError (e : event) : option error :=
  match e with
  | EvGetIdpUser _ _ (_, err) => err
  | EvGetUserByEmail _ (_, err) => err
  | EvCreateUser _ (_, err) => err
  | _ => None
  end.

(** The message [HandleLoginSuccess] logs when the call [e] failed. *)
Definition failureMessage (e : event) : string :=
  match e with
  | EvCreateUser _ _ => "failed to create user"
  | _ => "failed to get user"
  end.

(** The emails a local user was looked up by. *)
Definition lookedUp (tr : list event) : list string :=
  omap (fun e => match e with EvGetUserByEmail email _ => Some email | _ => None end) tr.
End MoreObservations.

Section Flow.
Context {W Space KubeDef : Type} `{SpaceFields Space}.

(** How the results of one run flow into its later calls. *)
Definition flowsFrom (h : Handler W Space KubeDef) (rt : Runtime W)
    (tr : list (event Space KubeDef)) (ev : event Space KubeDef) : Prop :=
  match ev with
  | EvExtractConfig id dir _ =>
      In (EvOpen (id, None)) tr /\
      exists url installationID repoID token,
        In (EvClone url installationID repoID token (dir, None)) tr
  | EvBuild breq _ =>
      exists id dir appSpace,
        In (EvExtractConfig id dir (appSpace, None)) tr /\
        breq = BuildArtifactRequest.mk (Service_Name appSpace) dir
                 (filepath_Join rt dir (Service_DockerfilePath appSpace)) "latest"
  | EvDefineApp id app image _ =>
      exists def appDef breq,
        In (EvSaveDeployment def (appDef, None)) tr /\
        In (EvBuild breq (image, None)) tr /\
        id = AppDefinition.ID appDef /\
        app = AppDefinition.App def
  | EvApply config kubeDef _ =>
      config = kubeConfig h /\
      exists id app image, In (EvDefineApp id app image kubeDef) tr
  | _ => True
  end.

End Flow.

(** The URL [exchangeCodeForToken] posts to for [code]. *)
Definition tokenURL {W Space KubeDef : Type} (h : Handler W Space KubeDef)
    (rt : Runtime W) (code : string) : string :=
  "https://github.com/login/oauth/access_token" +:+ "?" +:+
  url_Encode rt [("client_id", githubClientID h);
                 ("client_secret", githubSecret h);
                 ("code", code)].

(** ** Further scenarios *)

Module Cases.
Import Scenario.

(** A push to a branch that is neither [master] nor [main]. *)
Definition featurePush : GithubWebhookRequest.t :=
  GithubWebhookRequest.mk "abc123" installation (Sender.mk "alice") ""
    [] [] [] "refs/heads/feature-x" (Repository.mk 2 "" "o/r2" true).

(** A private and a public repository are added. *)
Definition addedMixed : GithubWebhookRequest.t :=
  GithubWebhookRequest.mk "" installation (Sender.mk "alice") "added"
    [] [repo2; repo1] [] "" noRepository.

Definition errToken : error := errorString 12 "no token".
Definition errIdp : error := errorString 13 "idp unreachable".
Definition errLookup : error := errorString 14 "database down".
Definition errCreate : error := errorString 15 "duplicate user".
Definition errState : error := errorString 16 "no such state".

(** [Scenario.handler] with another GitHub client. *)
Definition withGithubClient (c : GithubClient unit) : Handler unit Space string :=
  {| db := db handler; githubClient := c; git := git handler;
     extractor := extractor handler; docker := docker handler; kube := kube handler;
     kubeConfig := kubeConfig handler; authService := authService handler;
     l := l handler; githubClientID := githubClientID handler;
     githubSecret := githubSecret handler |}.

(** A GitHub client that issues no token. *)
Definition noTokens : GithubClient unit :=
  {| IssueAccessToken := fun _ w => (("", Some errToken), w) |}.

(** [Scenario.handler] with another auth service. *)
Definition withAuthService (a : AuthService unit) : Handler unit Space string :=
  {| db := db handler; githubClient := githubClient handler; git := git handler;
     extractor := extractor handler; docker := docker handler; kube := kube handler;
     kubeConfig := kubeConfig handler; authService := a;
     l := l handler; githubClientID := githubClientID handler;
     githubSecret := githubSecret handler |}.

Definition alice : UserInfo.t := UserInfo.mk "idp-42" "alice@example.com" "Alice".
Definition localAlice : UserInfo.t := UserInfo.mk "local-7" "alice@example.com" "Alice A.".

(** An auth service: the provider answers [idp], the lookup [lookup]
    and the creation [create]. *)
Definition service (idp lookup create : UserInfo.t * option error) : AuthService unit :=
  {| GetIdpUser := fun _ _ w => (idp, w);
     GetUserByEmail := fun _ w => (lookup, w);
     CreateUser := fun _ w => (create, w);
     Login := fun _ _ _ w => (tt, w) |}.

(** [Scenario.handler] with another persistence layer. *)
Definition withDb (d : Database unit Space) : Handler unit Space string :=
  {| db := d; githubClient := githubClient handler; git := git handler;
     extractor := extractor handler; docker := docker handler; kube := kube handler;
     kubeConfig := kubeConfig handler; authService := authService handler;
     l := l handler; githubClientID := githubClientID handler;
     githubSecret := githubSecret handler |}.

(** A persistence layer that knows the state [s-1] of
    [alice@example.com] and whose token write answers [saveErr]. *)
Definition knownState (saveErr : option error) : Database unit Space :=
  {| LinkGithub := LinkGithub (db handler);
     SaveDeployment := SaveDeployment (db handler);
     AuthStateExists := fun s w =>
       if String.eqb s "s-1" then (("alice@example.com", None), w)
       else (("", Some errState), w);
     SaveTokenPair := fun _ _ w => (saveErr, w) |}.

(** [Scenario.runtime] with a token endpoint answering [status]. *)
Definition runtimeStatus (code : Z) (status : string) : Runtime unit :=
  {| os_RemoveAll := os_RemoveAll runtime;
     filepath_Join := filepath_Join runtime;
     url_Encode := url_Encode runtime;
     http_NewRequest := http_NewRequest runtime;
     http_Do := fun _ _ _ w => ((HttpResponse.mk code status "{}", None), w);
     json_Decode := json_Decode runtime;
     time_Now := time_Now runtime |}.
End Cases.

(** * Properties *)

(** ** Running a body

    [run] takes a monadic body to its calls, in program order: every
    call to a collaborator is named and every test decided. *)

Ltac atomic x :=
  lazymatch x with
  | context [match _ with _ => _ end] => fail
  | context [if _ then _ else _] => fail
  | context [let '(_, _) := _ in _] => fail
  | _ => idtac
  end.

Ltac run1 :=
  match goal with
  | |- context [let '(_, _) := ?x in _] => atomic x; destruct x as [? ?] eqn:?
  | |- context [match ?x with Some _ => _ | None => _ end] => atomic x; destruct x eqn:?
  | |- context [if ?x then _ else _] => atomic x; destruct x eqn:?
  end.

Ltac run :=
  cbv beta iota delta [mbind mret M_bind M_ret call];
  repeat (run1; cbv beta iota).

Ltac run_in E := revert E; run; intros E; simplify_eq.

(** ** The repository resolver *)

Section Resolver.
Import GithubWebhookRequest.

(** C7. For an event whose action is ["created"], [ReposToProcess]
    returns the installation's repository list as it is (same
    elements, same order); for an event whose action is ["added"],
    it returns [RepositoriesAdded] as it is. *)
Theorem ReposToProcess_created_added (g : GithubWebhookRequest.t) :
  (Action g = "created" -> ReposToProcess g = Repositories g) /\
  (Action g = "added" -> ReposToProcess g = RepositoriesAdded g).
Proof.
  unfold ReposToProcess. split; intros ->; reflexivity.
Qed.

(** C8. For an event with the empty action: a ref other than
    [refs/heads/master] and [refs/heads/main] gives no repository; the
    ref [refs/heads/main] or [refs/heads/master] gives exactly one,
    carrying the [ID], [FullName] and [Private] of the embedded
    repository descriptor.  Any action other than ["created"],
    ["added"] and the empty one gives no repository. *)
Theorem ReposToProcess_push_or_other (g : GithubWebhookRequest.t) :
  (Action g = "" -> Ref g <> "refs/heads/master" -> Ref g <> "refs/heads/main" ->
   ReposToProcess g = []) /\
  (Action g = "" -> Ref g = "refs/heads/main" \/ Ref g = "refs/heads/master" ->
   exists r, ReposToProcess g = [r] /\
     InstalledRepository.ID r = Repository.ID (Repository g) /\
     InstalledRepository.FullName r = Repository.FullName (Repository g) /\
     InstalledRepository.Private r = Repository.Private (Repository g)) /\
  (Action g <> "created" -> Action g <> "added" -> Action g <> "" ->
   ReposToProcess g = []).
Proof.
  unfold ReposToProcess. split; [|split].
  - intros -> Hm Hn. simpl.
    apply String.eqb_neq in Hm, Hn. rewrite Hm, Hn. reflexivity.
  - intros -> Href. simpl.
    destruct Href as [-> | ->]; simpl; eexists; (split; [reflexivity|]); simpl; auto.
  - intros Hc Ha He.
    apply String.eqb_neq in Hc, Ha, He. rewrite Hc, Ha, He. reflexivity.
Qed.
End Resolver.

Lemma ReposToProcess_created_added_witness :
  GithubWebhookRequest.ReposToProcess Scenario.created = [Scenario.repo1] /\
  GithubWebhookRequest.ReposToProcess Scenario.added
  = [Scenario.repo1; InstalledRepository.mk 4 "o/r4" false ""].
Proof.
  split.
  - apply (proj1 (ReposToProcess_created_added Scenario.created)). reflexivity.
  - apply (proj2 (ReposToProcess_created_added Scenario.added)). reflexivity.
Defined.

Lemma ReposToProcess_push_or_other_witness :
  GithubWebhookRequest.ReposToProcess
    (GithubWebhookRequest.mk "" Scenario.installation (Sender.mk "alice") ""
       [] [] [] "refs/heads/feature-x" (Repository.mk 2 "" "o/r2" true)) = [] /\
  (exists r, GithubWebhookRequest.ReposToProcess Scenario.push = [r] /\
     InstalledRepository.ID r = 2 /\
     InstalledRepository.FullName r = "o/r2" /\
     InstalledRepository.Private r = true) /\
  GithubWebhookRequest.ReposToProcess
    (GithubWebhookRequest.mk "" Scenario.installation (Sender.mk "alice") "deleted"
       [Scenario.repo1] [Scenario.repo1] [] "refs/heads/main" Scenario.noRepository) = [].
Proof.
  split; [|split].
  - apply (proj1 (ReposToProcess_push_or_other _)); [reflexivity | discriminate | discriminate].
  - apply (proj1 (proj2 (ReposToProcess_push_or_other Scenario.push)));
      [reflexivity | left; reflexivity].
  - apply (proj2 (proj2 (ReposToProcess_push_or_other _))); discriminate.
Defined.

(** ** Traces of the webhook handler *)

Lemma triple_eta {A B C : Type} (x : A * B * C) : x = (x.1.1, x.1.2, x.2).
Proof. by destruct x as [[? ?] ?]. Qed.

Section TraceLemmas.
Context {Space KubeDef : Type}.
Implicit Types tr : list (event Space KubeDef).

Lemma acquiredDirs_app tr1 tr2 :
  acquiredDirs (tr1 ++ tr2) = acquiredDirs tr1 ++ acquiredDirs tr2.
Proof. apply omap_app. Qed.

Lemma removedDirs_app tr1 tr2 :
  removedDirs (tr1 ++ tr2) = removedDirs tr1 ++ removedDirs tr2.
Proof. apply omap_app. Qed.

Lemma openedSessions_app tr1 tr2 :
  openedSessions (tr1 ++ tr2) = openedSessions tr1 ++ openedSessions tr2.
Proof. apply omap_app. Qed.

Lemma closedSessions_app tr1 tr2 :
  closedSessions (tr1 ++ tr2) = closedSessions tr1 ++ closedSessions tr2.
Proof. apply omap_app. Qed.

Lemma savedDeployments_app tr1 tr2 :
  savedDeployments (tr1 ++ tr2) = savedDeployments tr1 ++ savedDeployments tr2.
Proof. apply omap_app. Qed.

Lemma deferredDirs_app (ds1 ds2 : list deferred) :
  deferredDirs (ds1 ++ ds2) = deferredDirs ds1 ++ deferredDirs ds2.
Proof. apply omap_app. Qed.

Lemma deferredSessions_app (ds1 ds2 : list deferred) :
  deferredSessions (ds1 ++ ds2) = deferredSessions ds1 ++ deferredSessions ds2.
Proof. apply omap_app. Qed.

Lemma validatedStates_app tr1 tr2 :
  validatedStates (tr1 ++ tr2) = validatedStates tr1 ++ validatedStates tr2.
Proof. apply omap_app. Qed.

(** A pipeline step is neither a release nor a link write. *)
Lemma steps_no_release tr :
  forallb isPipelineStep tr = true ->
  removedDirs tr = [] /\ closedSessions tr = [] /\
  forallb (fun e => negb (isRelease e)) tr = true /\
  existsb isLinkGithub tr = false.
Proof.
  induction tr as [|e tr IH]; simpl; [auto|].
  intros [He Htr]%andb_prop. destruct (IH Htr) as (-> & -> & -> & ->).
  destruct e; simpl in *; try discriminate; auto.
Qed.

(** A release is neither an acquisition nor a link write. *)
Lemma releases_no_step tr :
  forallb isRelease tr = true ->
  acquiredDirs tr = [] /\ openedSessions tr = [] /\
  savedDeployments tr = [] /\ clonedRepos tr = [] /\
  existsb isLinkGithub tr = false.
Proof.
  induction tr as [|e tr IH]; simpl; [auto|].
  intros [He Htr]%andb_prop. destruct (IH Htr) as (-> & -> & -> & -> & ->).
  destruct e; simpl in *; try discriminate; auto.
Qed.
End TraceLemmas.

Section Webhook.
Context {W Space KubeDef : Type} `{SpaceFields Space}.
Variable h : Handler W Space KubeDef.
Variable rt : Runtime W.

(** *** One run of the loop body *)

(** What one run of the loop body leaves behind: it only makes
    pipeline steps, and it pushes on the stack of deferred calls one
    removal per directory it cloned and one close per session it
    opened, the latest first. *)
Lemma pipeline_inv req repo ds w ds' r w' tr :
  pipeline h rt req repo ds w = (ds', r, w', tr) ->
  exists new,
    ds' = new ++ ds /\
    deferredDirs new = rev (acquiredDirs tr) /\
    deferredSessions new = rev (openedSessions tr) /\
    forallb isPipelineStep tr = true.
Proof.
  unfold pipeline. intros E. run_in E; simpl;
    first [ by exists []
          | by eexists [_]
          | by eexists [_; _] ].
Qed.

Lemma pipeline_error_code req repo ds w ds' e w' tr :
  pipeline h rt req repo ds w = (ds', Some e, w', tr) ->
  vel.Code e = "UNKNOWN".
Proof.
  unfold pipeline. intros E. run_in E; reflexivity.
Qed.

Lemma pipeline_saved req repo ds w ds' r w' tr :
  pipeline h rt req repo ds w = (ds', r, w', tr) ->
  Forall (carriesEvent req) (savedDeployments tr).
Proof.
  unfold pipeline. intros E. run_in E; simpl;
    repeat constructor.
Qed.

Lemma pipeline_success req repo ds w ds' w' tr :
  pipeline h rt req repo ds w = (ds', None, w', tr) ->
  exists pre id dir appSpace breq image appDef kubeDef,
    tr = pre ++
         [ EvExtractConfig id dir (appSpace, None);
           EvBuild breq (image, None);
           EvSaveDeployment
             (AppDefinition.mk "" "" appSpace (Image.Tag image)
                (GithubWebhookRequest.After req)
                (Sender.Login (GithubWebhookRequest.Sender req)) 0)
             (appDef, None);
           EvDefineApp (AppDefinition.ID appDef) appSpace image kubeDef;
           EvApply (kubeConfig h) kubeDef None ] /\
    savedDeployments pre = [].
Proof.
  unfold pipeline. intros E. run_in E; simpl.
  - by eexists [_; _; _], _, _, _, _, _, _, _.
  - by eexists [_; _], _, _, _, _, _, _, _.
Qed.

(** *** The loop *)

Lemma rangeRepos_inv req repos : forall ds w ds' r w' tr,
  rangeRepos h rt req repos ds w = (ds', r, w', tr) ->
  exists new,
    ds' = new ++ ds /\
    deferredDirs new = rev (acquiredDirs tr) /\
    deferredSessions new = rev (openedSessions tr) /\
    forallb isPipelineStep tr = true.
Proof.
  induction repos as [|repo rest IH]; intros ds w ds' r w' tr E.
  - inversion E; subst. by exists [].
  - simpl in E. unfold mbind, M_bind in E.
    destruct (pipeline h rt req repo ds w) as [[[ds1 r1] w1] t1] eqn:E1.
    apply pipeline_inv in E1 as (new1 & -> & Hd1 & Hs1 & Hp1).
    destruct r1 as [e|].
    + inversion E; subst. exists new1.
      rewrite app_nil_r. auto.
    + destruct (rangeRepos h rt req rest (new1 ++ ds) w1) as [[[ds2 r2] w2] t2] eqn:E2.
      apply IH in E2 as (new2 & -> & Hd2 & Hs2 & Hp2).
      inversion E; subst. exists (new2 ++ new1).
      rewrite acquiredDirs_app, openedSessions_app, !rev_app_distr.
      rewrite deferredDirs_app, deferredSessions_app, forallb_app.
      rewrite Hd1, Hs1, Hd2, Hs2, Hp1, Hp2, app_assoc. auto.
Qed.

Lemma rangeRepos_error_code req repos : forall ds w ds' e w' tr,
  rangeRepos h rt req repos ds w = (ds', Some e, w', tr) ->
  vel.Code e = "UNKNOWN".
Proof.
  induction repos as [|repo rest IH]; intros ds w ds' e w' tr E.
  - inversion E.
  - simpl in E. unfold mbind, M_bind in E.
    destruct (pipeline h rt req repo ds w) as [[[ds1 r1] w1] t1] eqn:E1.
    destruct r1 as [e1|].
    + inversion E; subst. eapply pipeline_error_code, E1.
    + destruct (rangeRepos h rt req rest ds1 w1) as [[[ds2 r2] w2] t2] eqn:E2.
      inversion E; subst. eapply IH, E2.
Qed.

Lemma rangeRepos_saved req repos : forall ds w ds' r w' tr,
  rangeRepos h rt req repos ds w = (ds', r, w', tr) ->
  Forall (carriesEvent req) (savedDeployments tr).
Proof.
  induction repos as [|repo rest IH]; intros ds w ds' r w' tr E.
  - inversion E; subst. constructor.
  - simpl in E. unfold mbind, M_bind in E.
    destruct (pipeline h rt req repo ds w) as [[[ds1 r1] w1] t1] eqn:E1.
    apply pipeline_saved in E1.
    destruct r1 as [e1|].
    + inversion E; subst. by rewrite app_nil_r.
    + destruct (rangeRepos h rt req rest ds1 w1) as [[[ds2 r2] w2] t2] eqn:E2.
      apply IH in E2. inversion E; subst.
      rewrite savedDeployments_app. by apply Forall_app.
Qed.

(** The loop over [pre ++ repo :: post] when the runs for [pre]
    succeed and the run for [repo] fails: it ends with that run. *)
Lemma rangeRepos_failure req pre repo post : forall ds w ds1 w1 t1 ds2 e w2 t2,
  rangeRepos h rt req pre ds w = (ds1, None, w1, t1) ->
  pipeline h rt req repo ds1 w1 = (ds2, Some e, w2, t2) ->
  rangeRepos h rt req (pre ++ repo :: post) ds w = (ds2, Some e, w2, t1 ++ t2).
Proof.
  induction pre as [|r0 pre IH]; intros ds w ds1 w1 t1 ds2 e w2 t2 E1 E2.
  - inversion E1; subst. simpl. unfold mbind, M_bind. rewrite E2.
    simpl. by rewrite ?app_nil_r.
  - simpl in *. unfold mbind, M_bind in *.
    destruct (pipeline h rt req r0 ds w) as [[[ds0 [e0|]] w0] t0]; [inversion E1|].
    destruct (rangeRepos h rt req pre ds0 w0) as [[[ds3 r3] w3] t3] eqn:E3.
    inversion E1; subst.
    rewrite (IH _ _ _ _ _ _ _ _ _ E3 E2). by rewrite app_assoc.
Qed.

(** *** The deferred calls *)

Lemma runDefers_trace ds : forall w u w' tr,
  runDefers h rt ds w = (u, w', tr) ->
  forallb isRelease tr = true /\
  removedDirs tr = deferredDirs ds /\
  closedSessions tr = deferredSessions ds.
Proof.
  induction ds as [|d ds IH]; intros w u w' tr E.
  - inversion E; subst. auto.
  - simpl in E. unfold mbind, M_bind in E.
    destruct (runDeferred h rt d w) as [[u1 w1] t1] eqn:E1.
    destruct (runDefers h rt ds w1) as [[u2 w2] t2] eqn:E2.
    apply IH in E2 as (Hr & Hd & Hs). inversion E; subst.
    rewrite removedDirs_app, closedSessions_app, forallb_app, Hr, Hd, Hs.
    destruct d; unfold runDeferred, call in E1; simpl in E1.
    + destruct (os_RemoveAll rt repoDir w); inversion E1; subst. auto.
    + destruct (Close (extractor h) extractorID w); inversion E1; subst. auto.
Qed.

(** *** The handler *)

Lemma linkInstallation_trace req w err w0 t0 :
  linkInstallation h req w = (err, w0, t0) ->
  forallb (fun e => negb (isRelease e)) t0 = true /\
  acquiredDirs t0 = [] /\ removedDirs t0 = [] /\
  openedSessions t0 = [] /\ closedSessions t0 = [] /\
  savedDeployments t0 = [] /\
  existsb isLinkGithub t0 = String.eqb (GithubWebhookRequest.Action req) "created".
Proof.
  unfold linkInstallation. intros E. run_in E; simpl; auto 10.
Qed.

(** The handler is the link write, then the loop, then the deferred
    calls; a failed link write ends it at once. *)
Lemma GithubWebhook_cases req w :
  (exists e w0 t0,
     linkInstallation h req w = (Some e, w0, t0) /\
     GithubWebhook h rt req w = (Some (UNKNOWN e), w0, t0)) \/
  (exists w0 t0 ds r w1 t1 w2 t2,
     linkInstallation h req w = (None, w0, t0) /\
     rangeRepos h rt req (GithubWebhookRequest.ReposToProcess req) [] w0
     = (ds, r, w1, t1) /\
     runDefers h rt ds w1 = (tt, w2, t2) /\
     GithubWebhook h rt req w = (r, w2, t0 ++ t1 ++ t2)).
Proof.
  unfold GithubWebhook, mbind, M_bind.
  destruct (linkInstallation h req w) as [[[e|] w0] t0] eqn:E0.
  - left. exists e, w0, t0. simpl. by rewrite app_nil_r.
  - right.
    destruct (rangeRepos h rt req _ [] w0) as [[[ds r] w1] t1] eqn:E1.
    destruct (runDefers h rt ds w1) as [[[] w2] t2] eqn:E2.
    exists w0, t0, ds, r, w1, t1, w2, t2. simpl. by rewrite app_nil_r.
Qed.

(** *** Failed steps *)

Tactic Notation "fails_after" uconstr(ok) :=
  eexists ok, _, _;
  split; [reflexivity|]; split; [repeat constructor|]; split; reflexivity.

(** Where a run fails: every step it made before the last one returned
    no error, the last one returned the error, and the run returns
    that error as [UNKNOWN]; a run that does not fail made no failing
    step. *)
Lemma pipeline_failure req repo ds w ds' r w' tr :
  pipeline h rt req repo ds w = (ds', r, w', tr) ->
  (r = None /\ Forall (fun e => stepError e = None) tr) \/
  (exists ok ev err,
     tr = ok ++ [ev] /\ Forall (fun e => stepError e = None) ok /\
     stepError ev = Some err /\ r = Some (UNKNOWN err)).
Proof.
  unfold pipeline. intros E. run_in E;
    first [ left; split; [reflexivity | by repeat constructor]
          | right;
            first [ fails_after []
                  | fails_after [_]
                  | fails_after [_; _]
                  | fails_after [_; _; _]
                  | fails_after [_; _; _; _]
                  | fails_after [_; _; _; _; _]
                  | fails_after [_; _; _; _; _; _]
                  | fails_after [_; _; _; _; _; _; _] ] ].
Qed.

Lemma rangeRepos_step_failure req repos : forall ds w ds' r w' tr,
  rangeRepos h rt req repos ds w = (ds', r, w', tr) ->
  (r = None /\ Forall (fun e => stepError e = None) tr) \/
  (exists ok ev err,
     tr = ok ++ [ev] /\ Forall (fun e => stepError e = None) ok /\
     stepError ev = Some err /\ r = Some (UNKNOWN err)).
Proof.
  induction repos as [|repo rest IH]; intros ds w ds' r w' tr E.
  - inversion E; subst. left. split; [reflexivity | constructor].
  - simpl in E. unfold mbind, M_bind in E.
    destruct (pipeline h rt req repo ds w) as [[[ds1 r1] w1] t1] eqn:E1.
    apply pipeline_failure in E1
      as [[-> Hok1] | (ok & ev & err & -> & Hok & Hev & ->)].
    + destruct (rangeRepos h rt req rest ds1 w1) as [[[ds2 r2] w2] t2] eqn:E2.
      apply IH in E2 as [[-> Hok2] | (ok & ev & err & -> & Hok & Hev & ->)];
        inversion E; subst.
      * left. split; [reflexivity | by apply Forall_app].
      * right. exists (t1 ++ ok), ev, err.
        rewrite app_assoc. repeat split; auto. by apply Forall_app.
    + inversion E; subst. right. exists ok, ev, err.
      rewrite app_nil_r. auto.
Qed.

Lemma no_failed_step_in (tr pre post : list (event Space KubeDef)) ev err :
  Forall (fun e => stepError e = None) tr ->
  tr = pre ++ ev :: post -> stepError ev = Some err -> False.
Proof.
  intros Hall -> Hev. apply Forall_app in Hall as [_ Hall].
  apply Forall_cons in Hall as [Hnone _]. congruence.
Qed.

Lemma failed_step_unique (ok rel pre post : list (event Space KubeDef)) ev ev' err :
  Forall (fun e => stepError e = None) ok ->
  Forall (fun e => stepError e = None) rel ->
  ok ++ ev :: rel = pre ++ ev' :: post ->
  stepError ev' = Some err ->
  ev' = ev /\ post = rel.
Proof.
  revert pre. induction ok as [|o ok IH]; intros pre Hok Hrel Heq Hev.
  - destruct pre as [|p pre]; simpl in Heq.
    + by injection Heq as -> ->.
    + injection Heq as -> Heq. exfalso. eapply no_failed_step_in; eauto.
  - apply Forall_cons in Hok as [Ho Hok].
    destruct pre as [|p pre]; simpl in Heq.
    + injection Heq as -> _. congruence.
    + injection Heq as _ Heq. eauto.
Qed.

Lemma releases_no_error (tr : list (event Space KubeDef)) :
  forallb isRelease tr = true -> Forall (fun e => stepError e = None) tr.
Proof.
  rewrite forallb_forall, Forall_forall. intros Hrel e He%list_elem_of_In.
  apply Hrel in He. by destruct e.
Qed.

Lemma linkInstallation_no_error req w err w0 t0 :
  linkInstallation h req w = (err, w0, t0) ->
  Forall (fun e => stepError e = None) t0.
Proof.
  unfold linkInstallation. intros E. run_in E; by repeat constructor.
Qed.

(** C1, as the code has it.  When a step of the pipeline (token
    issuance, clone, open, extract, build, persist or deploy) returns
    an error, the handler returns at that point: its error result is
    [UNKNOWN] with the message of the error the step returned, and
    every call the handler makes after the failed step is one of its
    deferred releases.  So nothing more is done for the repository of
    the failed step, and nothing at all for the repositories that
    follow it in the list. *)
Theorem step_failure_ends_handler req w pre ev post err :
  (GithubWebhook h rt req w).2 = pre ++ ev :: post ->
  stepError ev = Some err ->
  (GithubWebhook h rt req w).1.1 = Some (vel.mkError "UNKNOWN" (Error err)) /\
  forallb isRelease post = true /\
  forallb (fun e => negb (isPipelineStep e)) post = true /\
  Forall (fun e => stepError e = None) pre.
Proof.
  destruct (GithubWebhook_cases req w)
    as [(e & w0 & t0 & E0 & ->) | (w0 & t0 & ds & r & w1 & t1 & w2 & t2 & E0 & E1 & E2 & ->)];
    simpl; apply linkInstallation_no_error in E0 as Hn0; intros Heq Hev.
  - exfalso. eapply no_failed_step_in; eauto.
  - apply runDefers_trace in E2 as (Hrel & _).
    pose proof (releases_no_error _ Hrel) as Hn2.
    apply rangeRepos_step_failure in E1
      as [[-> Hok1] | (ok & ev0 & err0 & -> & Hok & Hev0 & ->)].
    + exfalso. eapply no_failed_step_in; [|exact Heq|exact Hev].
      by repeat apply Forall_app_2.
    + assert (Heq' : (t0 ++ ok) ++ ev0 :: t2 = pre ++ ev :: post).
      { rewrite <- Heq, <- !app_assoc. reflexivity. }
      assert (Hpre : Forall (fun e => stepError e = None) (t0 ++ ok))
        by (by apply Forall_app_2).
      destruct (failed_step_unique _ _ _ _ _ _ _ Hpre Hn2 Heq' Hev) as [-> ->].
      assert (err0 = err) as -> by congruence.
      split; [reflexivity|]. split; [exact Hrel|]. split.
      * apply forallb_forall. intros e He. rewrite forallb_forall in Hrel.
        apply Hrel in He. by destruct e.
      * apply app_inv_tail in Heq'. by rewrite <- Heq'.
Qed.

(** C4, as the code has it.  In every run of the handler, whichever
    step fails, the directories removed are the directories cloned
    and the sessions closed are the sessions opened, each once, in
    the reverse order of their acquisition; all the releases come
    together at the end of the run, when the handler returns, after
    the last pipeline step of the last repository processed. *)
Theorem releases_when_handler_returns req w :
  let tr := (GithubWebhook h rt req w).2 in
  removedDirs tr = rev (acquiredDirs tr) /\
  closedSessions tr = rev (openedSessions tr) /\
  exists body cleanup,
    tr = body ++ cleanup /\
    forallb (fun e => negb (isRelease e)) body = true /\
    forallb isRelease cleanup = true.
Proof.
  destruct (GithubWebhook_cases req w)
    as [(e & w0 & t0 & E0 & ->) | (w0 & t0 & ds & r & w1 & t1 & w2 & t2 & E0 & E1 & E2 & ->)];
    simpl; apply linkInstallation_trace in E0 as (Hn0 & Ha0 & Hr0 & Ho0 & Hc0 & _).
  - rewrite Ha0, Hr0, Ho0, Hc0. repeat split.
    exists t0, []. by rewrite app_nil_r.
  - apply rangeRepos_inv in E1 as (new & -> & Hd & Hs & Hp).
    apply runDefers_trace in E2 as (Hrel & Hrd & Hcs).
    rewrite app_nil_r in Hrd, Hcs.
    destruct (steps_no_release _ Hp) as (Hr1 & Hc1 & Hn1 & _).
    destruct (releases_no_step _ Hrel) as (Ha2 & Ho2 & _).
    rewrite !removedDirs_app, !acquiredDirs_app, !closedSessions_app, !openedSessions_app.
    rewrite Ha0, Hr0, Ho0, Hc0, Hr1, Hc1, Ha2, Ho2, Hrd, Hcs, Hd, Hs. simpl.
    rewrite !app_nil_r. repeat split.
    exists (t0 ++ t1), t2. rewrite app_assoc, forallb_app, Hn0, Hn1. auto.
Qed.

(** C5. For an event whose action is ["created"], the handler's
    first call is [LinkGithub] with the installation id, the
    sender's login and the event's repository list.  When that call
    fails the handler returns an [UNKNOWN] error carrying its
    message and has made no other call; when it succeeds, every
    other call of the handler comes after it. *)
Theorem link_before_processing req w :
  GithubWebhookRequest.Action req = "created" ->
  let installationID := Installation.ID (GithubWebhookRequest.Installation req) in
  let login := Sender.Login (GithubWebhookRequest.Sender req) in
  let repos := GithubWebhookRequest.Repositories req in
  match LinkGithub (db h) installationID login repos w with
  | (Some e, w0) =>
      GithubWebhook h rt req w
      = (Some (vel.mkError "UNKNOWN" (Error e)), w0,
         [EvLinkGithub installationID login repos (Some e)])
  | (None, w0) =>
      exists r w' rest,
        GithubWebhook h rt req w
        = (r, w', EvLinkGithub installationID login repos None :: rest) /\
        existsb isLinkGithub rest = false
  end.
Proof.
  intros Hact. simpl.
  destruct (LinkGithub _ _ _ _ w) as [err w0] eqn:EL.
  assert (E0 : linkInstallation h req w
               = (err, w0, [EvLinkGithub
                   (Installation.ID (GithubWebhookRequest.Installation req))
                   (Sender.Login (GithubWebhookRequest.Sender req))
                   (GithubWebhookRequest.Repositories req) err])).
  { unfold linkInstallation, call. rewrite Hact. simpl. by rewrite EL. }
  destruct (GithubWebhook_cases req w)
    as [(e' & ? & ? & E0' & ->) | (? & ? & ds & r & w1 & t1 & w2 & t2 & E0' & E1 & E2 & ->)];
    rewrite E0 in E0'; simplify_eq; [reflexivity|].
  exists r, w2, (t1 ++ t2). split; [reflexivity|].
  apply rangeRepos_inv in E1 as (_ & _ & _ & _ & Hp).
  apply runDefers_trace in E2 as (Hrel & _).
  rewrite existsb_app.
  destruct (steps_no_release _ Hp) as (_ & _ & _ & ->).
  by destruct (releases_no_step _ Hrel) as (_ & _ & _ & _ & ->).
Qed.

(** C9. A successful run of the pipeline for one repository hands
    [SaveDeployment] exactly one [AppDefinition]: its [App] is the
    spec [ExtractConfig] returned, its [Tag] the tag of the image
    [Build] returned, its [User] the sender's login and its [Sha]
    the [After] field of the event.  So every definition the handler
    saves carries the sender's login and the event's [After], and an
    empty [Sha] when [After] is empty. *)
Theorem saved_definition req :
  (forall repo ds w ds' w' tr,
     pipeline h rt req repo ds w = (ds', None, w', tr) ->
     exists pre post id dir appSpace breq image res,
       let def := AppDefinition.mk "" "" appSpace (Image.Tag image)
                    (GithubWebhookRequest.After req)
                    (Sender.Login (GithubWebhookRequest.Sender req)) 0 in
       tr = pre ++ EvExtractConfig id dir (appSpace, None)
                :: EvBuild breq (image, None)
                :: EvSaveDeployment def res
                :: post /\
       savedDeployments tr = [def]) /\
  (forall w,
     Forall (fun def =>
               AppDefinition.User def = Sender.Login (GithubWebhookRequest.Sender req) /\
               AppDefinition.Sha def = GithubWebhookRequest.After req /\
               (GithubWebhookRequest.After req = "" -> AppDefinition.Sha def = ""))
            (savedDeployments (GithubWebhook h rt req w).2)).
Proof.
  split.
  - intros repo ds w ds' w' tr E.
    apply pipeline_success in E
      as (pre & id & dir & appSpace & breq & image & appDef & kubeDef & -> & Hpre).
    eexists pre, _, id, dir, appSpace, breq, image, (appDef, None). simpl. split.
    + reflexivity.
    + rewrite savedDeployments_app, Hpre. reflexivity.
  - intros w.
    assert (Hall : Forall (carriesEvent req) (savedDeployments (GithubWebhook h rt req w).2)).
    { destruct (GithubWebhook_cases req w)
        as [(e & w0 & t0 & E0 & ->) | (w0 & t0 & ds & r & w1 & t1 & w2 & t2 & E0 & E1 & E2 & ->)];
        simpl; apply linkInstallation_trace in E0 as (_ & _ & _ & _ & _ & Hs0 & _).
      - rewrite Hs0. constructor.
      - apply rangeRepos_saved in E1.
        apply runDefers_trace in E2 as (Hrel & _).
        destruct (releases_no_step _ Hrel) as (_ & _ & Hs2 & _).
        rewrite !savedDeployments_app, Hs0, Hs2, app_nil_r. exact E1. }
    eapply Forall_impl; [exact Hall|].
    intros def [Hu Hs]. repeat split; auto. intros <-. exact Hs.
Qed.

(** C10. The handler calls [LinkGithub] exactly when the action of
    the event is ["created"]: for any other action the trace of the
    handler holds no [LinkGithub] call. *)
Theorem link_iff_created req w :
  (exists e, In e (GithubWebhook h rt req w).2 /\ isLinkGithub e = true)
  <-> GithubWebhookRequest.Action req = "created".
Proof.
  rewrite <- existsb_exists, <- String.eqb_eq.
  destruct (GithubWebhook_cases req w)
    as [(e & w0 & t0 & E0 & ->) | (w0 & t0 & ds & r & w1 & t1 & w2 & t2 & E0 & E1 & E2 & ->)];
    simpl; apply linkInstallation_trace in E0 as (_ & _ & _ & _ & _ & _ & Hl0).
  - by rewrite Hl0.
  - apply rangeRepos_inv in E1 as (_ & _ & _ & _ & Hp).
    apply runDefers_trace in E2 as (Hrel & _).
    destruct (steps_no_release _ Hp) as (_ & _ & _ & Hl1).
    destruct (releases_no_step _ Hrel) as (_ & _ & _ & _ & Hl2).
    by rewrite !existsb_app, Hl0, Hl1, Hl2, !orb_false_r.
Qed.
End Webhook.

(** *** The scenarios of the specification, run *)

Section WebhookScenarios.
Import Scenario.

(** C1 as stated fails: the clone of the first of two added
    repositories fails, the handler reports the failure, and the
    second repository is never cloned. *)
Lemma later_repository_not_processed :
  (GithubWebhook handler runtime addedBroken tt).1.1
    = Some (vel.mkError "UNKNOWN" "clone failed") /\
  ~ (forall repo,
       In repo (GithubWebhookRequest.ReposToProcess addedBroken) ->
       In (InstalledRepository.ID repo)
          (clonedRepos (GithubWebhook handler runtime addedBroken tt).2)).
Proof.
  split; [reflexivity|].
  intros Hall. specialize (Hall repo1 (or_intror (or_introl eq_refl))).
  vm_compute in Hall. destruct Hall as [Heq | []]. discriminate Heq.
Qed.

Lemma step_failure_ends_handler_witness :
  (GithubWebhook handler runtime addedBroken tt).1.1
  = Some (vel.mkError "UNKNOWN" "clone failed") /\
  forallb (@isRelease Space string) [] = true /\
  forallb (fun e : event Space string => negb (isPipelineStep e)) [] = true /\
  Forall (fun e : event Space string => stepError e = None) [].
Proof.
  apply (step_failure_ends_handler handler runtime addedBroken tt []
           (EvClone "https://github.com/o/broken.git" 7 3 "" ("", Some errClone)) []
           errClone); reflexivity.
Defined.

(** C4 as stated fails: two repositories are added and both
    pipelines succeed, yet the directory of the first is still there
    when the second is cloned. *)
Lemma directory_outlives_its_iteration :
  ~ removedWhenProcessingEnds (GithubWebhook handler runtime added tt).2.
Proof.
  intros Hall.
  specialize (Hall
    (take 7 (GithubWebhook handler runtime added tt).2)
    (EvClone "https://github.com/o/r4.git" 7 4 "" ("/tmp/https://github.com/o/r4.git", None))
    (drop 8 (GithubWebhook handler runtime added tt).2)
    eq_refl eq_refl).
  vm_compute in Hall. apply Permutation_nil in Hall. discriminate Hall.
Qed.

Lemma link_before_processing_witness :
  GithubWebhook handler runtime createdUnlinked tt
  = (Some (vel.mkError "UNKNOWN" "link failed"), tt,
     [EvLinkGithub 7 "mallory" [repo1] (Some errLink)]).
Proof.
  apply (link_before_processing handler runtime createdUnlinked tt). reflexivity.
Defined.

Lemma saved_definition_witness :
  exists appSpace image,
    savedDeployments
      (pipeline handler runtime push (InstalledRepository.mk 2 "o/r2" true "") [] tt).2
    = [AppDefinition.mk "" "" appSpace (Image.Tag image) "abc123" "alice" 0].
Proof.
  destruct (proj1 (saved_definition handler runtime push)
              (InstalledRepository.mk 2 "o/r2" true "") [] tt _ tt _ eq_refl)
    as (pre & post & id & dir & appSpace & breq & image & res & Htr & Hsaved).
  exists appSpace, image. exact Hsaved.
Defined.
End WebhookScenarios.

(** ** The OAuth callback *)

Section Callback.
Context {W Space KubeDef : Type}.
Variable h : Handler W Space KubeDef.
Variable rt : Runtime W.

Lemma Values_Get_absent (q : Values) key :
  q !! key = None -> Values_Get q key = "".
Proof. unfold Values_Get. by intros ->. Qed.

(** The callback returns before its first call when [code] or
    [state] reads as the empty string. *)
Lemma GithubCallbackHandler_empty_parameter r w :
  Values_Get (Request.Query r) "code" = "" \/
  Values_Get (Request.Query r) "state" = "" ->
  exists msg,
    GithubCallbackHandler h rt r w = (http_Error msg StatusBadRequest, w, []).
Proof.
  unfold GithubCallbackHandler. intros [Hc | Hs].
  - rewrite Hc. simpl. by eexists.
  - rewrite Hs. destruct (String.eqb _ ""); simpl; by eexists.
Qed.

(** C6. A callback whose [code] parameter is absent, or whose
    [state] parameter is absent, is answered with a bad request; the
    handler has made no call at all (no state lookup, no token
    exchange) and the world, the stored states included, is as it
    was. *)
Theorem callback_missing_parameter r w :
  Request.Query r !! "code" = None \/ Request.Query r !! "state" = None ->
  exists msg,
    GithubCallbackHandler h rt r w = (http_Error msg StatusBadRequest, w, []) /\
    Response.StatusCode (http_Error msg StatusBadRequest) = 400.
Proof.
  intros Habs.
  destruct (GithubCallbackHandler_empty_parameter r w) as [msg Hmsg].
  { destruct Habs as [Hc | Hs]; [left | right]; by apply Values_Get_absent. }
  exists msg. by split.
Qed.
End Callback.

Section SingleUse.
Context {W Space KubeDef : Type}.
Variable clock : W -> Z.
Variable h0 : Handler W Space KubeDef.
Variable rt0 : Runtime W.

Let h := withAuthStates clock h0.
Let rt := liftRuntime rt0.

Ltac run_store :=
  cbv beta iota delta [mbind mret M_bind M_ret call onWorld fst snd];
  simpl;
  repeat (run1; cbv beta iota delta [fst snd]; simpl).

(** The token exchange knows nothing of the stored states. *)
Lemma exchangeCodeForToken_store code store w res σ tr :
  exchangeCodeForToken h rt code (store, w) = (res, σ, tr) ->
  σ.1 = store /\ validatedStates tr = [].
Proof.
  unfold exchangeCodeForToken, h, rt. intros E.
  revert E. run_store; intros E; simplify_eq; auto.
Qed.

(** What a callback does to the stored states: it leaves them as
    they are and validates nothing, or it validates the state value
    of its request, which was stored, and deletes it. *)
Lemma GithubCallbackHandler_store r store w resp σ tr :
  GithubCallbackHandler h rt r (store, w) = (resp, σ, tr) ->
  (σ.1 = store /\ validatedStates tr = []) \/
  (let s := Values_Get (Request.Query r) "state" in
   is_Some (store !! s) /\ σ.1 = delete s store /\ validatedStates tr = [s]).
Proof.
  unfold GithubCallbackHandler. intros E. revert E.
  cbv beta iota delta [mbind mret M_bind M_ret call].
  destruct (String.eqb _ ""); [intros; simplify_eq; by left|].
  destruct (String.eqb _ ""); [intros; simplify_eq; by left|].
  simpl. unfold ConsumeAuthState. simpl.
  destruct (store !! _) as [a|] eqn:Hs; [|intros; simplify_eq; by left].
  destruct (clock w <=? _); [|intros; simplify_eq; by left].
  simpl.
  destruct (exchangeCodeForToken h rt _ _) as [[[tp err] [store1 w1]] t1] eqn:E1.
  apply exchangeCodeForToken_store in E1 as [Hst Hv]. simpl in Hst. subst store1.
  assert (Hval : forall post : list (event Space KubeDef),
             validatedStates post = [] ->
             validatedStates
               (EvAuthStateExists (Values_Get (Request.Query r) "state")
                  (AuthState.Email a, None) :: t1 ++ post)
             = [Values_Get (Request.Query r) "state"]).
  { intros post Hpost. unfold validatedStates in *. simpl.
    by rewrite omap_app, Hv, Hpost. }
  destruct err; simpl.
  - intros; simplify_eq. right. auto.
  - unfold onWorld. simpl. destruct (SaveTokenPair _ _ _ _).1;
      intros; simplify_eq; right; auto.
Qed.

(** A state value that is not stored is not validated, and is not
    stored afterwards either. *)
Lemma GithubCallbackHandler_absent s r store w resp σ tr :
  store !! s = None ->
  GithubCallbackHandler h rt r (store, w) = (resp, σ, tr) ->
  σ.1 !! s = None /\ s ∉ validatedStates tr.
Proof.
  intros Hs E.
  apply GithubCallbackHandler_store in E as [[-> ->] | (Hsome & -> & ->)].
  - split; [done | apply not_elem_of_nil].
  - split.
    + destruct (decide (Values_Get (Request.Query r) "state" = s)) as [->|Hne].
      * apply lookup_delete_eq.
      * by rewrite lookup_delete_ne.
    + intros ->%list_elem_of_singleton. rewrite Hs in Hsome. by destruct Hsome.
Qed.

Lemma serveCallbacks_absent s rs : forall store w resps σ tr,
  store !! s = None ->
  serveCallbacks h rt rs (store, w) = (resps, σ, tr) ->
  σ.1 !! s = None /\ s ∉ validatedStates tr.
Proof.
  induction rs as [|r rs IH]; intros store w resps σ tr Hs E.
  - inversion E; subst. split; [done | apply not_elem_of_nil].
  - simpl in E. unfold mbind, M_bind in E.
    destruct (GithubCallbackHandler h rt r (store, w)) as [[resp [store1 w1]] t1] eqn:E1.
    destruct (serveCallbacks h rt rs (store1, w1)) as [[resps2 σ2] t2] eqn:E2.
    apply (GithubCallbackHandler_absent s) in E1 as [Hs1 Hv1]; [|done].
    apply IH in E2 as [Hs2 Hv2]; [|done].
    simpl in E. inversion E; subst.
    split; [done|].
    rewrite app_nil_r, validatedStates_app. by intros [?|?]%elem_of_app.
Qed.

(** A callback presenting a state value that is not stored: the
    answer is a bad request, nothing is validated and no token is
    exchanged. *)
Lemma GithubCallbackHandler_rejects r store w resp σ tr :
  store !! Values_Get (Request.Query r) "state" = None ->
  GithubCallbackHandler h rt r (store, w) = (resp, σ, tr) ->
  Response.StatusCode resp = 400 /\
  (Values_Get (Request.Query r) "code" <> "" ->
   resp = http_Error "State not found" StatusBadRequest) /\
  validatedStates tr = [] /\
  existsb isHttpDo tr = false /\
  σ.1 = store.
Proof.
  intros Hs. unfold GithubCallbackHandler.
  cbv beta iota delta [mbind mret M_bind M_ret call].
  destruct (String.eqb _ "") eqn:Hc.
  { intros; simplify_eq. apply String.eqb_eq in Hc. repeat split; auto.
    intros Hne. by destruct Hne. }
  clear Hc. destruct (String.eqb _ ""); [intros; by simplify_eq|].
  simpl. unfold ConsumeAuthState. simpl. rewrite Hs. simpl.
  intros; by simplify_eq.
Qed.

(** C3.  With the states kept as the specification describes, a
    state value validates once: when a callback has validated the
    state value [s], then, whatever callbacks are delivered in
    between, a later callback presenting [s] is answered with a bad
    request ([State not found] when it carries a code), validates
    nothing and exchanges no token. *)
Theorem state_validates_once r1 rs r2 s σ0 resp1 σ1 t1 resps σ2 t resp2 σ3 t2 :
  GithubCallbackHandler h rt r1 σ0 = (resp1, σ1, t1) ->
  s ∈ validatedStates t1 ->
  serveCallbacks h rt rs σ1 = (resps, σ2, t) ->
  Values_Get (Request.Query r2) "state" = s ->
  GithubCallbackHandler h rt r2 σ2 = (resp2, σ3, t2) ->
  Response.StatusCode resp2 = 400 /\
  (Values_Get (Request.Query r2) "code" <> "" ->
   resp2 = http_Error "State not found" StatusBadRequest) /\
  validatedStates t2 = [] /\
  existsb isHttpDo t2 = false /\
  s ∉ validatedStates t.
Proof.
  destruct σ0 as [store0 w0], σ1 as [store1 w1], σ2 as [store2 w2].
  intros E1 Hin E Hs E2.
  assert (Hgone : store1 !! s = None).
  { apply GithubCallbackHandler_store in E1 as [[_ Hv] | (_ & Hst & Hv)];
      rewrite Hv in Hin.
    - by apply not_elem_of_nil in Hin.
    - apply list_elem_of_singleton in Hin. simpl in Hst. subst.
      apply lookup_delete_eq. }
  apply (serveCallbacks_absent s) in E as [Hgone2 Hnv]; [|done].
  simpl in Hgone2. rewrite <- Hs in Hgone2.
  apply GithubCallbackHandler_rejects in E2 as (? & ? & ? & ? & _); [|done].
  auto.
Qed.
End SingleUse.

Section CallbackScenarios.
Import Scenario.

Lemma callback_missing_parameter_witness :
  exists msg,
    GithubCallbackHandler (withAuthStates (fun _ => 5) handler) (liftRuntime runtime)
      callbackNoState (authStates, tt)
    = (http_Error msg StatusBadRequest, (authStates, tt), []) /\
    Response.StatusCode (http_Error msg StatusBadRequest) = 400.
Proof.
  apply (callback_missing_parameter (withAuthStates (fun _ => 5) handler)
           (liftRuntime runtime) callbackNoState (authStates, tt)).
  right. reflexivity.
Defined.

(** The state [s-1] is stored; a first callback validates it, a
    callback for another state follows, and a second callback
    presenting [s-1] is turned down. *)
Lemma state_validates_once_witness :
  let h := withAuthStates (fun _ => 5) handler in
  let rt := liftRuntime runtime in
  let first := GithubCallbackHandler h rt (callback "c0de" "s-1") (authStates, tt) in
  let between := serveCallbacks h rt [callback "c0de" "s-2"] first.1.2 in
  let second := GithubCallbackHandler h rt (callback "c1de" "s-1") between.1.2 in
  Response.StatusCode first.1.1 = 200 /\
  "s-1" ∈ validatedStates first.2 /\
  Response.StatusCode second.1.1 = 400 /\
  second.1.1 = http_Error "State not found" StatusBadRequest /\
  validatedStates second.2 = [] /\
  existsb isHttpDo second.2 = false.
Proof.
  intros h rt first between second.
  assert (Hin : "s-1" ∈ validatedStates first.2) by (vm_compute; left).
  split; [reflexivity|]. split; [exact Hin|].
  destruct (state_validates_once (fun _ => 5) handler runtime
              (callback "c0de" "s-1") [callback "c0de" "s-2"] (callback "c1de" "s-1")
              "s-1" (authStates, tt)
              first.1.1 first.1.2 first.2
              between.1.1 between.1.2 between.2
              second.1.1 second.1.2 second.2)
    as (Hstatus & Hbody & Hnone & Hhttp & _);
    [ apply triple_eta | exact Hin | apply triple_eta | reflexivity | apply triple_eta | ].
  split; [exact Hstatus|]. split; [|split; [exact Hnone | exact Hhttp]].
  apply Hbody. intros Hcode. vm_compute in Hcode. discriminate Hcode.
Defined.
End CallbackScenarios.

(** ** Login success *)

Section LoginSuccess.
Context {W Space KubeDef : Type}.
Variable h : Handler W Space KubeDef.

(** The lookup reports user-not-found: [CreateUser] receives the
    user value the lookup returned with its error, and when it
    succeeds the session is bound to the id of the created user.
    The identity the provider resolved is only used for its email. *)
Lemma HandleLoginSuccess_not_found r w idpUser w1 found err w2 :
  let intent := Values_Get (Request.Query r) "id" in
  let token := Values_Get (Request.Query r) "token" in
  GetIdpUser (authService h) intent token w = ((idpUser, None), w1) ->
  GetUserByEmail (authService h) (UserInfo.Email idpUser) w1 = ((found, Some err), w2) ->
  errors_Is err ErrUserNotFound = true ->
  createdFrom (HandleLoginSuccess h r w).2 = [found] /\
  forall created w3,
    CreateUser (authService h) found w2 = ((created, None), w3) ->
    (HandleLoginSuccess h r w).1.1 = None /\
    sessions (HandleLoginSuccess h r w).2 = [(UserInfo.ID created, intent, token)].
Proof.
  simpl. intros E1 E2 Hnf.
  unfold HandleLoginSuccess, establishSession, logError.
  cbv beta iota delta [mbind mret M_bind M_ret call].
  rewrite E1. cbv beta iota. rewrite E2. cbv beta iota.
  unfold errors_Is_opt. rewrite Hnf. simpl.
  split.
  - run; reflexivity.
  - intros created w3 E3. rewrite E3. run; auto.
Qed.

(** Any other lookup error ends the attempt with status 400: no
    user is created and no session is established. *)
Lemma HandleLoginSuccess_lookup_error r w idpUser w1 found err w2 :
  let intent := Values_Get (Request.Query r) "id" in
  let token := Values_Get (Request.Query r) "token" in
  GetIdpUser (authService h) intent token w = ((idpUser, None), w1) ->
  GetUserByEmail (authService h) (UserInfo.Email idpUser) w1 = ((found, Some err), w2) ->
  errors_Is err ErrUserNotFound = false ->
  (HandleLoginSuccess h r w).1.1 = Some (WriteHeader 400) /\
  createdFrom (HandleLoginSuccess h r w).2 = [] /\
  sessions (HandleLoginSuccess h r w).2 = [].
Proof.
  simpl. intros E1 E2 Hnf.
  unfold HandleLoginSuccess, establishSession, logError.
  cbv beta iota delta [mbind mret M_bind M_ret call].
  rewrite E1. cbv beta iota. rewrite E2. cbv beta iota.
  rewrite Hnf. simpl. run; auto.
Qed.
End LoginSuccess.

(** C2 on the code.  The provider resolves [alice@example.com] with
    id [idp-42] and display name [Alice]; the local lookup reports
    user-not-found together with the empty user value.  The user
    handed to [CreateUser] is that empty value, not the identity the
    provider returned, and the session is bound to the user created
    from it. *)
Theorem HandleLoginSuccess_creates_from_lookup_result :
  let run := HandleLoginSuccess Scenario.handler Scenario.loginSuccess tt in
  In (EvGetIdpUser "intent-1" "tok-1"
        (UserInfo.mk "idp-42" "alice@example.com" "Alice", None)) run.2 /\
  In (EvGetUserByEmail "alice@example.com" (UserInfo.mk "" "" "", Some ErrUserNotFound))
     run.2 /\
  createdFrom run.2 = [UserInfo.mk "" "" ""] /\
  createdFrom run.2 <> [UserInfo.mk "idp-42" "alice@example.com" "Alice"] /\
  sessions run.2 = [("local-", "intent-1", "tok-1")].
Proof.
  vm_compute. repeat split; auto. discriminate.
Qed.

(** * Further properties *)

(** ** The event model *)

Lemma string_length_append (a b : string) :
  String.length (a +:+ b) = (String.length a + String.length b)%nat.
Proof. induction a as [|c a IH]; simpl; [reflexivity | by rewrite IH]. Qed.

Lemma string_append_inj_r (s a b : string) : a +:+ s = b +:+ s -> a = b.
Proof.
  revert b. induction a as [|c a IH]; intros [|d b] Heq; simpl in Heq.
  - reflexivity.
  - apply (f_equal String.length) in Heq.
    rewrite !string_length_append in Heq. simpl in Heq. lia.
  - apply (f_equal String.length) in Heq.
    rewrite !string_length_append in Heq. simpl in Heq. lia.
  - injection Heq as -> Heq. f_equal. by apply IH.
Qed.

(** X1. Two repositories have the same clone URL exactly when they
    have the same full name. *)
Theorem CloneUrl_inj (r1 r2 : InstalledRepository.t) :
  InstalledRepository.CloneUrl r1 = InstalledRepository.CloneUrl r2 <->
  InstalledRepository.FullName r1 = InstalledRepository.FullName r2.
Proof.
  unfold InstalledRepository.CloneUrl. split; [|by intros ->].
  intros Heq. apply (inj (String.append "https://github.com/")) in Heq.
  by apply string_append_inj_r in Heq.
Qed.

(** X2. The repositories to process are read off the action, the ref,
    the two repository lists for installation events and the id, full
    name and visibility of the pushed repository; the removed
    repositories, the installation, the sender, the commit and the
    clone URL of the payload play no part. *)
Theorem ReposToProcess_frame (g g' : GithubWebhookRequest.t) :
  GithubWebhookRequest.Action g = GithubWebhookRequest.Action g' ->
  GithubWebhookRequest.Ref g = GithubWebhookRequest.Ref g' ->
  GithubWebhookRequest.Repositories g = GithubWebhookRequest.Repositories g' ->
  GithubWebhookRequest.RepositoriesAdded g = GithubWebhookRequest.RepositoriesAdded g' ->
  Repository.ID (GithubWebhookRequest.Repository g)
  = Repository.ID (GithubWebhookRequest.Repository g') ->
  Repository.FullName (GithubWebhookRequest.Repository g)
  = Repository.FullName (GithubWebhookRequest.Repository g') ->
  Repository.Private (GithubWebhookRequest.Repository g)
  = Repository.Private (GithubWebhookRequest.Repository g') ->
  GithubWebhookRequest.ReposToProcess g = GithubWebhookRequest.ReposToProcess g'.
Proof.
  unfold GithubWebhookRequest.ReposToProcess.
  by intros -> -> -> -> -> -> ->.
Qed.

Lemma ReposToProcess_frame_witness :
  GithubWebhookRequest.ReposToProcess Scenario.push
  = GithubWebhookRequest.ReposToProcess
      (GithubWebhookRequest.mk "def456"
         (Installation.mk 9 (InstallationAccount.mk 90 "Organization" "acme"))
         (Sender.mk "bob") "" [] [] [Scenario.repo1] "refs/heads/main"
         (Repository.mk 2 "https://github.com/o/r2.git" "o/r2" true)).
Proof.
  apply ReposToProcess_frame; reflexivity.
Defined.

(** ** The webhook handler, further *)

Section WebhookMore.
Context {W Space KubeDef : Type} `{SpaceFields Space}.
Variable h : Handler W Space KubeDef.
Variable rt : Runtime W.

Lemma clonedRepos_app (tr1 tr2 : list (event Space KubeDef)) :
  clonedRepos (tr1 ++ tr2) = clonedRepos tr1 ++ clonedRepos tr2.
Proof. apply omap_app. Qed.

Lemma tokenIssues_app (tr1 tr2 : list (event Space KubeDef)) :
  tokenIssues (tr1 ++ tr2) = tokenIssues tr1 ++ tokenIssues tr2.
Proof. apply omap_app. Qed.

Lemma releases_no_token (tr : list (event Space KubeDef)) :
  forallb isRelease tr = true -> tokenIssues tr = [].
Proof.
  induction tr as [|e tr IH]; simpl; [auto|].
  intros [He Htr]%andb_prop. destruct e; simpl in *; try discriminate; auto.
Qed.

Lemma linkInstallation_no_step req w err w0 t0 :
  linkInstallation h req w = (err, w0, t0) ->
  clonedRepos t0 = [] /\ tokenIssues t0 = [] /\
  forall e, In e t0 -> isLinkGithub e = true.
Proof.
  unfold linkInstallation. intros E. run_in E; simpl; repeat split; auto;
    intros e' Hin; repeat destruct Hin as [<- | Hin]; by try destruct Hin.
Qed.

(** What one run counts: a token request exactly for a private
    repository, at most one clone, at most one saved definition, and
    one of each when the run succeeds. *)
Lemma pipeline_counts req repo ds w ds' r w' tr :
  pipeline h rt req repo ds w = (ds', r, w', tr) ->
  tokenIssues tr
  = (if InstalledRepository.Private repo
     then [Installation.ID (GithubWebhookRequest.Installation req)] else []) /\
  (clonedRepos tr = [InstalledRepository.ID repo] \/
   clonedRepos tr = [] /\ r <> None) /\
  (length (savedDeployments tr) <= 1)%nat /\
  (r = None -> length (savedDeployments tr) = 1%nat).
Proof.
  unfold pipeline. intros E. run_in E; simpl;
    repeat split; auto; try lia; try discriminate; by right.
Qed.

Lemma rangeRepos_counts req repos : forall ds w ds' r w' tr,
  rangeRepos h rt req repos ds w = (ds', r, w', tr) ->
  clonedRepos tr `prefix_of` map InstalledRepository.ID repos /\
  (length (savedDeployments tr) <= length repos)%nat /\
  Forall (fun i => i = Installation.ID (GithubWebhookRequest.Installation req))
         (tokenIssues tr) /\
  (length (tokenIssues tr)
   <= length (filter (fun x => InstalledRepository.Private x = true) repos))%nat /\
  (r = None ->
   clonedRepos tr = map InstalledRepository.ID repos /\
   length (savedDeployments tr) = length repos /\
   length (tokenIssues tr)
   = length (filter (fun x => InstalledRepository.Private x = true) repos)).
Proof.
  induction repos as [|repo rest IH]; intros ds w ds' r w' tr E.
  - inversion E; subst. simpl. split; [apply prefix_nil|]. repeat split; auto.
  - simpl in E. unfold mbind, M_bind in E.
    destruct (pipeline h rt req repo ds w) as [[[ds1 r1] w1] t1] eqn:E1.
    apply pipeline_counts in E1 as (Htok & Hcl & Hle & Hok).
    assert (Hall1 : Forall (fun i => i = Installation.ID (GithubWebhookRequest.Installation req))
                           (tokenIssues t1)).
    { rewrite Htok. destruct (InstalledRepository.Private repo); auto. }
    assert (Hlen1 : length (filter (fun x => InstalledRepository.Private x = true)
                                   (repo :: rest))
                    = (length (tokenIssues t1)
                       + length (filter (fun x => InstalledRepository.Private x = true) rest))%nat).
    { rewrite Htok, filter_cons.
      destruct (InstalledRepository.Private repo); case_decide; try done. }
    rewrite Hlen1.
    destruct r1 as [e1|].
    + inversion E; subst. rewrite app_nil_r. simpl. split.
      { destruct Hcl as [-> | [-> _]]; [|apply prefix_nil].
        by apply prefix_cons, prefix_nil. }
      split; [lia|]. split; [done|]. split; [lia|]. discriminate.
    + destruct (rangeRepos h rt req rest ds1 w1) as [[[ds2 r2] w2] t2] eqn:E2.
      apply IH in E2 as (Hpre & Hle2 & Hall2 & Htl2 & Hok2).
      inversion E; subst.
      rewrite clonedRepos_app, savedDeployments_app, tokenIssues_app, !length_app.
      destruct Hcl as [Hcl | [_ Hbad]]; [|by destruct Hbad].
      rewrite Hcl. specialize (Hok eq_refl). simpl.
      split; [by apply prefix_cons|]. split; [lia|].
      split; [by apply Forall_app|]. split; [lia|].
      intros ->. destruct (Hok2 eq_refl) as (Hc & Hs & Ht).
      rewrite Hc, Hs, Ht. repeat split; auto; lia.
Qed.

(** X3. The handler clones the repositories in the order of the list,
    starting from its head: the repository ids of its clone calls are
    a prefix of the ids of the repositories to process, and all of
    them when the handler returns no error. *)
Theorem clones_follow_list req w :
  let out := GithubWebhook h rt req w in
  clonedRepos out.2
    `prefix_of` map InstalledRepository.ID (GithubWebhookRequest.ReposToProcess req) /\
  (out.1.1 = None ->
   clonedRepos out.2 = map InstalledRepository.ID (GithubWebhookRequest.ReposToProcess req)).
Proof.
  destruct (GithubWebhook_cases h rt req w)
    as [(e & w0 & t0 & E0 & ->) | (w0 & t0 & ds & r & w1 & t1 & w2 & t2 & E0 & E1 & E2 & ->)];
    simpl; apply linkInstallation_no_step in E0 as (Hc0 & _ & _).
  - rewrite Hc0. split; [apply prefix_nil | discriminate].
  - apply rangeRepos_counts in E1 as (Hpre & _ & _ & _ & Hok).
    apply runDefers_trace in E2 as (Hrel & _).
    destruct (releases_no_step _ Hrel) as (_ & _ & _ & Hc2 & _).
    rewrite !clonedRepos_app, Hc0, Hc2, app_nil_r. simpl.
    split; [done|]. intros ->. by destruct (Hok eq_refl).
Qed.

(** X4. An event that resolves to no repository and is no
    installation event: the handler makes no call at all and returns
    success; the world is as it was. *)
Theorem nothing_to_process req w :
  GithubWebhookRequest.ReposToProcess req = [] ->
  GithubWebhookRequest.Action req <> "created" ->
  GithubWebhook h rt req w = (None, w, []).
Proof.
  intros Hnil Hact%String.eqb_neq.
  unfold GithubWebhook, linkInstallation. rewrite Hnil, Hact. reflexivity.
Qed.

(** X5. For a public repository no access token is requested: the
    run starts with the clone, of the repository's clone URL with the
    installation id, the repository id and the empty token. *)
Theorem public_repo_clones_without_token req repo ds w :
  InstalledRepository.Private repo = false ->
  tokenIssues (pipeline h rt req repo ds w).2 = [] /\
  exists res rest,
    (pipeline h rt req repo ds w).2
    = EvClone (InstalledRepository.CloneUrl repo)
        (Installation.ID (GithubWebhookRequest.Installation req))
        (InstalledRepository.ID repo) "" res :: rest.
Proof.
  intros Hpub. unfold pipeline. rewrite Hpub. run; simpl; eauto.
Qed.

(** X6. For a private repository the run starts by requesting an
    access token for the installation.  When the request fails the
    run ends there with an [UNKNOWN] error: nothing is cloned and
    nothing is left to release.  When it succeeds, the clone that
    follows carries the token received. *)
Theorem private_repo_token req repo ds w :
  InstalledRepository.Private repo = true ->
  let installationID := Installation.ID (GithubWebhookRequest.Installation req) in
  match IssueAccessToken (githubClient h) installationID w with
  | ((token, Some e), w1) =>
      pipeline h rt req repo ds w
      = (ds, Some (vel.mkError "UNKNOWN" (Error e)), w1,
         [EvIssueAccessToken installationID (token, Some e)])
  | ((token, None), w1) =>
      exists res rest,
        (pipeline h rt req repo ds w).2
        = EvIssueAccessToken installationID (token, None)
          :: EvClone (InstalledRepository.CloneUrl repo) installationID
               (InstalledRepository.ID repo) token res
          :: rest
  end.
Proof.
  intros Hpriv. simpl. unfold pipeline. rewrite Hpriv.
  cbv beta iota delta [mbind mret M_bind M_ret call].
  destruct (IssueAccessToken _ _ w) as [[token [e|]] w1]; cbv beta iota; [reflexivity|].
  run; simpl; eauto.
Qed.

(** X7. The handler saves at most one definition per repository to
    process, and exactly one per repository when it returns no error:
    a repository listed twice is deployed twice. *)
Theorem one_definition_per_repository req w :
  let out := GithubWebhook h rt req w in
  (length (savedDeployments out.2)
   <= length (GithubWebhookRequest.ReposToProcess req))%nat /\
  (out.1.1 = None ->
   length (savedDeployments out.2) = length (GithubWebhookRequest.ReposToProcess req)).
Proof.
  destruct (GithubWebhook_cases h rt req w)
    as [(e & w0 & t0 & E0 & ->) | (w0 & t0 & ds & r & w1 & t1 & w2 & t2 & E0 & E1 & E2 & ->)];
    simpl; apply linkInstallation_trace in E0 as (_ & _ & _ & _ & _ & Hs0 & _).
  - rewrite Hs0. simpl. split; [lia | discriminate].
  - apply rangeRepos_counts in E1 as (_ & Hle & _ & _ & Hok).
    apply runDefers_trace in E2 as (Hrel & _).
    destruct (releases_no_step _ Hrel) as (_ & _ & Hs2 & _).
    rewrite !savedDeployments_app, Hs0, Hs2, app_nil_r. simpl.
    split; [done|]. intros ->. by destruct (Hok eq_refl) as (_ & ? & _).
Qed.

(** X8. Every error the handler returns has the code [UNKNOWN],
    whichever call failed. *)
Theorem handler_error_is_UNKNOWN req w e :
  (GithubWebhook h rt req w).1.1 = Some e -> vel.Code e = "UNKNOWN".
Proof.
  destruct (GithubWebhook_cases h rt req w)
    as [(e' & w0 & t0 & E0 & ->) | (w0 & t0 & ds & r & w1 & t1 & w2 & t2 & E0 & E1 & E2 & ->)];
    simpl.
  - by intros [= <-].
  - intros ->. eapply rangeRepos_error_code, E1.
Qed.

(** X9. Access tokens are not reused across repositories: every token
    request of the handler is for the installation of the event, there
    are at most as many as private repositories to process, and one
    per private repository when the handler returns no error. *)
Theorem one_token_per_private_repository req w :
  let out := GithubWebhook h rt req w in
  let private :=
    filter (fun x => InstalledRepository.Private x = true)
           (GithubWebhookRequest.ReposToProcess req) in
  Forall (fun i => i = Installation.ID (GithubWebhookRequest.Installation req))
         (tokenIssues out.2) /\
  (length (tokenIssues out.2) <= length private)%nat /\
  (out.1.1 = None -> length (tokenIssues out.2) = length private).
Proof.
  destruct (GithubWebhook_cases h rt req w)
    as [(e & w0 & t0 & E0 & ->) | (w0 & t0 & ds & r & w1 & t1 & w2 & t2 & E0 & E1 & E2 & ->)];
    simpl; apply linkInstallation_no_step in E0 as (_ & Ht0 & _).
  - rewrite Ht0. simpl. repeat split; [constructor | lia | discriminate].
  - apply rangeRepos_counts in E1 as (_ & _ & Hall & Hle & Hok).
    apply runDefers_trace in E2 as (Hrel & _).
    rewrite !tokenIssues_app, Ht0, (releases_no_token _ Hrel), app_nil_r. simpl.
    repeat split; auto. intros ->. by destruct (Hok eq_refl) as (_ & _ & ?).
Qed.

Lemma flowsFrom_mono tr tr' ev :
  (forall e, In e tr -> In e tr') -> flowsFrom h rt tr ev -> flowsFrom h rt tr' ev.
Proof.
  intros Hsub. destruct ev; simpl; auto.
  - intros [Ho (url & i & r & t & Hc)]. split; [auto|]. exists url, i, r, t. auto.
  - intros (id' & dir' & a & He & ->). exists id', dir', a. auto.
  - intros (d & a & b & Hs & Hb & -> & ->). exists d, a, b. auto.
  - intros [-> (i & a & im & Hd)]. split; [auto|]. exists i, a, im. auto.
Qed.

Ltac pick_event := simpl; solve [repeat first [left; reflexivity | right]].

Ltac flow :=
  repeat match goal with
    | |- _ /\ _ => split
    | |- exists _, _ => eexists
    | |- In _ _ => pick_event
    | |- _ \/ _ => pick_event
    | |- _ = _ => reflexivity
    | |- True => exact I
    end.

Lemma pipeline_flow req repo ds w ds' r w' tr :
  pipeline h rt req repo ds w = (ds', r, w', tr) ->
  forall ev, In ev tr -> flowsFrom h rt tr ev.
Proof.
  unfold pipeline. intros E. run_in E; intros ev Hin; simpl in Hin;
    repeat destruct Hin as [<- | Hin]; try destruct Hin; simpl; flow.
Qed.

Lemma rangeRepos_flow req repos : forall ds w ds' r w' tr,
  rangeRepos h rt req repos ds w = (ds', r, w', tr) ->
  forall ev, In ev tr -> flowsFrom h rt tr ev.
Proof.
  induction repos as [|repo rest IH]; intros ds w ds' r w' tr E ev Hin.
  - inversion E; subst. destruct Hin.
  - simpl in E. unfold mbind, M_bind in E.
    destruct (pipeline h rt req repo ds w) as [[[ds1 r1] w1] t1] eqn:E1.
    pose proof (pipeline_flow _ _ _ _ _ _ _ _ E1) as H1.
    destruct r1 as [e1|].
    + inversion E; subst. rewrite app_nil_r in *. auto.
    + destruct (rangeRepos h rt req rest ds1 w1) as [[[ds2 r2] w2] t2] eqn:E2.
      pose proof (IH _ _ _ _ _ _ E2) as H2.
      inversion E; subst. apply in_app_or in Hin as [Hin | Hin].
      * eapply flowsFrom_mono; [|by apply H1]. intros; apply in_or_app; auto.
      * eapply flowsFrom_mono; [|by apply H2]. intros; apply in_or_app; auto.
Qed.

Lemma GithubWebhook_flow req w ev :
  In ev (GithubWebhook h rt req w).2 -> flowsFrom h rt (GithubWebhook h rt req w).2 ev.
Proof.
  destruct (GithubWebhook_cases h rt req w)
    as [(e & w0 & t0 & E0 & ->) | (w0 & t0 & ds & r & w1 & t1 & w2 & t2 & E0 & E1 & E2 & ->)];
    simpl; apply linkInstallation_no_step in E0 as (_ & _ & Hl0).
  - intros Hin. apply Hl0 in Hin. by destruct ev.
  - intros Hin. apply in_app_or in Hin as [Hin | Hin].
    { apply Hl0 in Hin. by destruct ev. }
    apply in_app_or in Hin as [Hin | Hin].
    + eapply flowsFrom_mono; [|by eapply rangeRepos_flow].
      intros; apply in_or_app; right; apply in_or_app; auto.
    + apply runDefers_trace in E2 as (Hrel & _).
      rewrite forallb_forall in Hrel. apply Hrel in Hin. by destruct ev.
Qed.

(** X10. Every image build of the handler is requested for the result
    of a successful extraction of the same run: the name is the
    service name of the extracted spec, the path the directory the
    spec was extracted from, the Dockerfile the spec's Dockerfile path
    joined to that directory, and the tag is [latest].  That
    extraction read a directory a successful clone returned, through
    a session a successful [Open] returned. *)
Theorem build_follows_extraction req w breq res :
  let tr := (GithubWebhook h rt req w).2 in
  In (EvBuild breq res) tr ->
  exists id dir appSpace url installationID repoID token,
    In (EvClone url installationID repoID token (dir, None)) tr /\
    In (EvOpen (id, None)) tr /\
    In (EvExtractConfig id dir (appSpace, None)) tr /\
    breq = BuildArtifactRequest.mk (Service_Name appSpace) dir
             (filepath_Join rt dir (Service_DockerfilePath appSpace)) "latest".
Proof.
  simpl. intros Hin.
  destruct (GithubWebhook_flow _ _ _ Hin) as (id & dir & appSpace & Hex & ->).
  destruct (GithubWebhook_flow _ _ _ Hex) as (Hopen & url & i & rid & tok & Hclone).
  exists id, dir, appSpace, url, i, rid, tok. auto.
Qed.

(** X11. The handler deploys what it saved: every [DefineApp] call
    receives the id [SaveDeployment] assigned to a definition saved
    with success, the spec of that definition and an image a
    successful build returned; every [Apply] call receives the
    handler's cluster configuration and a definition [DefineApp]
    returned. *)
Theorem deploy_follows_save req w :
  let tr := (GithubWebhook h rt req w).2 in
  (forall id app image kubeDef,
     In (EvDefineApp id app image kubeDef) tr ->
     exists def appDef breq,
       In (EvSaveDeployment def (appDef, None)) tr /\
       In (EvBuild breq (image, None)) tr /\
       id = AppDefinition.ID appDef /\
       app = AppDefinition.App def) /\
  (forall config kubeDef err,
     In (EvApply config kubeDef err) tr ->
     config = kubeConfig h /\
     exists id app image, In (EvDefineApp id app image kubeDef) tr).
Proof.
  simpl. split.
  - intros id app image kubeDef Hin. exact (GithubWebhook_flow _ _ _ Hin).
  - intros config kubeDef err Hin. exact (GithubWebhook_flow _ _ _ Hin).
Qed.

(** *** The order of the releases *)

Lemma pipeline_nesting req repo ds w ds' r w' tr :
  pipeline h rt req repo ds w = (ds', r, w', tr) ->
  closeAboveRemoval ds -> closeAboveRemoval ds'.
Proof.
  unfold pipeline. intros E. run_in E; simpl; auto.
Qed.

Lemma rangeRepos_nesting req repos : forall ds w ds' r w' tr,
  rangeRepos h rt req repos ds w = (ds', r, w', tr) ->
  closeAboveRemoval ds -> closeAboveRemoval ds'.
Proof.
  induction repos as [|repo rest IH]; intros ds w ds' r w' tr E Hds.
  - by inversion E; subst.
  - simpl in E. unfold mbind, M_bind in E.
    destruct (pipeline h rt req repo ds w) as [[[ds1 r1] w1] t1] eqn:E1.
    apply pipeline_nesting in E1; [|done].
    destruct r1 as [e1|].
    + by inversion E; subst.
    + destruct (rangeRepos h rt req rest ds1 w1) as [[[ds2 r2] w2] t2] eqn:E2.
      inversion E; subst. eapply IH; eauto.
Qed.

(** The deferred calls run from the top of the stack down. *)
Lemma runDefers_events ds : forall w u w' tr,
  runDefers h rt ds w = (u, w', tr) -> tr = map releaseEvent ds.
Proof.
  induction ds as [|d ds IH]; intros w u w' tr E.
  - by inversion E.
  - simpl in E. unfold mbind, M_bind in E.
    destruct (runDeferred h rt d w) as [[u1 w1] t1] eqn:E1.
    destruct (runDefers h rt ds w1) as [[u2 w2] t2] eqn:E2.
    apply IH in E2 as ->. inversion E; subst. simpl.
    destruct d; unfold runDeferred, call in E1; simpl in E1.
    + destruct (os_RemoveAll rt repoDir w); by inversion E1.
    + destruct (Close (extractor h) extractorID w); by inversion E1.
Qed.

Lemma close_then_removal ds : forall pre id post,
  closeAboveRemoval ds ->
  map (@releaseEvent Space KubeDef) ds = pre ++ EvClose id :: post ->
  exists dir post', post = EvRemoveAll dir :: post'.
Proof.
  induction ds as [|d ds IH]; intros pre id post Hds Heq.
  - by destruct pre.
  - destruct pre as [|e pre]; simpl in Heq.
    + injection Heq as Hd <-. destruct d as [|id']; [discriminate Hd|].
      simpl in Hds. destruct ds as [|[dir|] ds]; try done.
      simpl. eauto.
    + injection Heq as _ Heq. eapply IH; [|exact Heq].
      destruct d; simpl in Hds; [done|].
      destruct ds as [|[|] ?]; done.
Qed.

Lemma no_release_before (body cleanup pre post : list (event Space KubeDef)) e :
  forallb (fun e => negb (isRelease e)) body = true ->
  isRelease e = true ->
  body ++ cleanup = pre ++ e :: post ->
  exists pre', cleanup = pre' ++ e :: post.
Proof.
  revert pre. induction body as [|b body IH]; intros pre Hbody He Heq.
  - exists pre. exact Heq.
  - simpl in Hbody. apply andb_prop in Hbody as [Hb Hbody].
    destruct pre as [|p pre]; simpl in Heq.
    + injection Heq as -> _. rewrite He in Hb. discriminate Hb.
    + injection Heq as _ Heq. eauto.
Qed.

(** X12. A session is closed right before a working directory is
    removed: in the trace of the handler every [Close] call is
    immediately followed by an [os.RemoveAll] call. *)
Theorem close_precedes_removal req w pre id post :
  (GithubWebhook h rt req w).2 = pre ++ EvClose id :: post ->
  exists dir post', post = EvRemoveAll dir :: post'.
Proof.
  destruct (GithubWebhook_cases h rt req w)
    as [(e & w0 & t0 & E0 & ->) | (w0 & t0 & ds & r & w1 & t1 & w2 & t2 & E0 & E1 & E2 & ->)];
    simpl; apply linkInstallation_trace in E0 as (Hn0 & _).
  - intros Heq. rewrite <- (app_nil_r t0) in Heq.
    apply no_release_before in Heq as [pre' Heq]; auto. by destruct pre'.
  - apply rangeRepos_nesting in E1 as Hnest; [|exact I].
    apply rangeRepos_inv in E1 as (_ & _ & _ & _ & Hp).
    destruct (steps_no_release _ Hp) as (_ & _ & Hn1 & _).
    apply runDefers_events in E2 as ->.
    rewrite app_assoc. intros Heq.
    apply no_release_before in Heq as [pre' Heq]; auto.
    + eapply close_then_removal; eauto.
    + by rewrite forallb_app, Hn0, Hn1.
Qed.
End WebhookMore.

Section WebhookCases.
Import Scenario Cases.

Lemma clones_follow_list_witness :
  clonedRepos (GithubWebhook handler runtime added tt).2 = [1; 4].
Proof.
  apply (proj2 (clones_follow_list handler runtime added tt)). reflexivity.
Defined.

Lemma nothing_to_process_witness :
  GithubWebhook handler runtime featurePush tt = (None, tt, []).
Proof.
  apply nothing_to_process; [reflexivity | discriminate].
Defined.

Lemma public_repo_clones_without_token_witness :
  tokenIssues (pipeline handler runtime created repo1 [] tt).2 = [] /\
  exists res rest,
    (pipeline handler runtime created repo1 [] tt).2
    = EvClone "https://github.com/o/r.git" 7 1 "" res :: rest.
Proof.
  apply (public_repo_clones_without_token handler runtime created repo1 [] tt).
  reflexivity.
Defined.

Lemma private_repo_token_witness :
  pipeline (withGithubClient noTokens) runtime push repo2 [] tt
  = ([], Some (vel.mkError "UNKNOWN" "no token"), tt,
     [EvIssueAccessToken 7 ("", Some errToken)]).
Proof.
  apply (private_repo_token (withGithubClient noTokens) runtime push repo2 [] tt).
  reflexivity.
Defined.

Lemma one_definition_per_repository_witness :
  length (savedDeployments (GithubWebhook handler runtime added tt).2) = 2%nat.
Proof.
  apply (proj2 (one_definition_per_repository handler runtime added tt)). reflexivity.
Defined.

Lemma handler_error_is_UNKNOWN_witness :
  vel.Code (vel.mkError "UNKNOWN" "clone failed") = "UNKNOWN".
Proof.
  apply (handler_error_is_UNKNOWN handler runtime addedBroken tt). reflexivity.
Defined.

Lemma one_token_per_private_repository_witness :
  length (tokenIssues (GithubWebhook handler runtime addedMixed tt).2) = 1%nat.
Proof.
  apply (proj2 (proj2 (one_token_per_private_repository handler runtime addedMixed tt))).
  reflexivity.
Defined.

Lemma build_follows_extraction_witness :
  exists id dir appSpace url installationID repoID token,
    In (EvClone url installationID repoID token (dir, None))
       (GithubWebhook handler runtime push tt).2 /\
    In (EvOpen (id, None)) (GithubWebhook handler runtime push tt).2 /\
    In (EvExtractConfig id dir (appSpace, None)) (GithubWebhook handler runtime push tt).2 /\
    BuildArtifactRequest.mk "svc" "/tmp/https://github.com/o/r2.git"
      "/tmp/https://github.com/o/r2.git/Dockerfile" "latest"
    = BuildArtifactRequest.mk (Service_Name appSpace) dir
        (filepath_Join runtime dir (Service_DockerfilePath appSpace)) "latest".
Proof.
  apply (build_follows_extraction handler runtime push tt _
           (Image.mk "registry" "svc" "latest", None)).
  vm_compute. do 4 right. left. reflexivity.
Defined.

Lemma deploy_follows_save_witness :
  exists def appDef breq,
    In (EvSaveDeployment def (appDef, None)) (GithubWebhook handler runtime push tt).2 /\
    In (EvBuild breq (Image.mk "registry" "svc" "latest", None))
       (GithubWebhook handler runtime push tt).2 /\
    "app-1" = AppDefinition.ID appDef /\
    mkSpace "svc" "Dockerfile" = AppDefinition.App def.
Proof.
  apply (proj1 (deploy_follows_save handler runtime push tt) _ _ _ "app-1=svc:latest").
  vm_compute. do 6 right. left. reflexivity.
Defined.

Lemma close_precedes_removal_witness :
  exists dir post',
    [@EvRemoveAll Space string "/tmp/https://github.com/o/r.git"]
    = EvRemoveAll dir :: post'.
Proof.
  apply (close_precedes_removal handler runtime created tt
           (take 8 (GithubWebhook handler runtime created tt).2) "session").
  reflexivity.
Defined.
End WebhookCases.

Lemma triple_eta4 {A B C D : Type} (x : A * B * C * D) :
  x = (x.1.1.1, x.1.1.2, x.1.2, x.2).
Proof. by destruct x as [[[? ?] ?] ?]. Qed.

(** ** The token exchange and the callback, further *)

Section ExchangeMore.
Context {W Space KubeDef : Type}.
Variable h : Handler W Space KubeDef.
Variable rt : Runtime W.

Lemma httpRequests_app (tr1 tr2 : list (event Space KubeDef)) :
  httpRequests (tr1 ++ tr2) = httpRequests tr1 ++ httpRequests tr2.
Proof. apply omap_app. Qed.

Lemma savedTokens_app (tr1 tr2 : list (event Space KubeDef)) :
  savedTokens (tr1 ++ tr2) = savedTokens tr1 ++ savedTokens tr2.
Proof. apply omap_app. Qed.

Lemma exchangeCodeForToken_calls code w tp err w' tr :
  exchangeCodeForToken h rt code w = (tp, err, w', tr) ->
  validatedStates tr = [] /\ savedTokens tr = [] /\
  (httpRequests tr = [] -> err <> None).
Proof.
  unfold exchangeCodeForToken. intros E. run_in E; simpl;
    repeat split; auto; discriminate.
Qed.

(** X13. A failed exchange returns the zero token pair.  An exchange
    sends at most one HTTP request, a POST to the token endpoint
    carrying the client id, the client secret and the code, and it
    calls nothing else than the HTTP client and the clock. *)
Theorem exchange_failure_and_request code w tp err w' tr :
  exchangeCodeForToken h rt code w = (tp, err, w', tr) ->
  (err <> None -> tp = TokenPair.mk "" "" 0) /\
  (httpRequests tr = [] \/ httpRequests tr = [("POST", tokenURL h rt code)]) /\
  validatedStates tr = [] /\ savedTokens tr = [].
Proof.
  unfold exchangeCodeForToken. intros E. run_in E; simpl;
    repeat split; auto; by intros [].
Qed.

Lemma wrap64_small (z : Z) : - 2 ^ 63 <= z < 2 ^ 63 -> wrap64 z = z.
Proof. intros Hz. unfold wrap64. rewrite Z.mod_small; lia. Qed.

Lemma wrap64_over (z : Z) : 2 ^ 63 <= z < 2 ^ 63 + 2 ^ 64 -> wrap64 z = z - 2 ^ 64.
Proof.
  intros Hz. unfold wrap64.
  replace (z + 2 ^ 63) with ((z + 2 ^ 63 - 2 ^ 64) + 1 * 2 ^ 64) by lia.
  rewrite Z_mod_plus_full, Z.mod_small; lia.
Qed.

(** X14. A successful exchange: the endpoint answered 200 with a body
    that decodes, and the token pair carries the access and refresh
    tokens of the answer.  For a clock whose reading fits in an
    [int64] of nanoseconds, its expiry is the time read after
    decoding, plus the lifetime of the answer as an [int64] of
    nanoseconds, less ten seconds.  For a lifetime of at most 9223372036 seconds either
    way the pair expires ten seconds before the lifetime ends; from
    9223372037 seconds on the nanoseconds wrap around and the pair is
    expired when it is issued. *)
Theorem exchange_success code w tp w' tr :
  exchangeCodeForToken h rt code w = (tp, None, w', tr) ->
  exists resp result now,
    let lifetime := GithubTokenResponse.ExpiresIn result in
    tr = [EvHttpDo "POST" (tokenURL h rt code) (resp, None); EvNow now] /\
    HttpResponse.StatusCode resp = 200 /\
    json_Decode rt (HttpResponse.Body resp) = (result, None) /\
    TokenPair.AccessToken tp = GithubTokenResponse.AccessToken result /\
    TokenPair.RefreshToken tp = GithubTokenResponse.RefreshToken result /\
    (- 2 ^ 63 <= now < 2 ^ 63 ->
     TokenPair.ExpiresIn tp
     = now + wrap64 (lifetime * 1000000000) - 10000000000 /\
     (- 9223372036 <= lifetime <= 9223372036 ->
      TokenPair.ExpiresIn tp = now + lifetime * 1000000000 - 10000000000) /\
     (9223372037 <= lifetime <= 18446744073 -> TokenPair.ExpiresIn tp < now)).
Proof.
  unfold exchangeCodeForToken. intros E. run_in E.
  match goal with
  | Hs : negb (_ =? StatusOK) = false |- _ =>
      apply negb_false_iff, Z.eqb_eq in Hs
  end.
  eexists _, _, _. cbv zeta. simpl TokenPair.ExpiresIn.
  unfold Time_Add, Duration_seconds, Second.
  rewrite (wrap64_small (1000000000 * -10)) by lia.
  repeat split; eauto; try lia.
  - intros Hl. rewrite wrap64_small by lia. lia.
  - intros Hl. rewrite wrap64_over by lia. lia.
Qed.

(** X15. An answer of the token endpoint with a status other than 200
    is an error that names the status line; the body is not decoded and
    the clock is not read. *)
Theorem exchange_rejects_status code w resp w1 :
  http_NewRequest rt "POST" (tokenURL h rt code) = None ->
  http_Do rt "POST" (tokenURL h rt code) [("Accept", "application/json")] w
  = ((resp, None), w1) ->
  HttpResponse.StatusCode resp <> 200 ->
  exists e,
    exchangeCodeForToken h rt code w
    = (TokenPair.mk "" "" 0, Some e, w1,
       [EvHttpDo "POST" (tokenURL h rt code) (resp, None)]) /\
    Error e = "failed to exchange code for token: " +:+ HttpResponse.Status resp /\
    errors_Is e ErrUserNotFound = false.
Proof.
  unfold tokenURL. intros Hreq Hdo Hst. unfold exchangeCodeForToken.
  cbv beta iota delta [mbind mret M_bind M_ret call].
  rewrite Hreq, Hdo. cbv beta iota.
  apply Z.eqb_neq in Hst. unfold StatusOK. rewrite Hst. simpl.
  eexists. repeat split.
Qed.

(** X16. The callback answers 200 only when all three steps went
    through: the state lookup returned an email, the exchange of the
    request's code returned a token pair, and the access token of that
    pair was saved under that email.  These are the handler's calls,
    in this order. *)
Theorem callback_ok r w resp w' tr :
  GithubCallbackHandler h rt r w = (resp, w', tr) ->
  Response.StatusCode resp = 200 ->
  let code := Values_Get (Request.Query r) "code" in
  let state := Values_Get (Request.Query r) "state" in
  code <> "" /\ state <> "" /\
  exists email w1 tp w2 tex,
    AuthStateExists (db h) state w = ((email, None), w1) /\
    exchangeCodeForToken h rt code w1 = (tp, None, w2, tex) /\
    SaveTokenPair (db h) email (TokenPair.AccessToken tp) w2 = (None, w') /\
    tr = EvAuthStateExists state (email, None)
         :: tex ++ [EvSaveTokenPair email (TokenPair.AccessToken tp) None].
Proof.
  unfold GithubCallbackHandler. intros E Hst. revert E.
  cbv beta iota delta [mbind mret M_bind M_ret call].
  destruct (String.eqb (Values_Get _ "code") "") eqn:Hc;
    [by intros; simplify_eq|].
  destruct (String.eqb (Values_Get _ "state") "") eqn:Hs;
    [by intros; simplify_eq|].
  apply String.eqb_neq in Hc, Hs.
  destruct (AuthStateExists _ _ w) as [[email [e|]] w1] eqn:EA; cbv beta iota;
    [by intros; simplify_eq|].
  destruct (exchangeCodeForToken h rt _ w1) as [[[tp [e|]] w2] tex] eqn:EX; cbv beta iota;
    [by intros; simplify_eq|].
  destruct (SaveTokenPair _ _ _ w2) as [[e|] w3] eqn:ES; cbv beta iota;
    intros; simplify_eq.
  simpl. repeat split; auto.
  by exists email, w1, tp, w2, tex.
Qed.

(** X17. The callback answers 200, 400 or 500.  With 400 it has sent
    no HTTP request and saved no token; with 500 the state lookup had
    accepted the state of the request; a token is handed to
    [SaveTokenPair] only after that lookup and an HTTP request. *)
Theorem callback_status r w resp w' tr :
  GithubCallbackHandler h rt r w = (resp, w', tr) ->
  let state := Values_Get (Request.Query r) "state" in
  (Response.StatusCode resp = 200 \/ Response.StatusCode resp = 400 \/
   Response.StatusCode resp = 500) /\
  (Response.StatusCode resp = 400 -> httpRequests tr = [] /\ savedTokens tr = []) /\
  (Response.StatusCode resp = 500 -> validatedStates tr = [state]) /\
  (savedTokens tr <> [] -> validatedStates tr = [state] /\ httpRequests tr <> []).
Proof.
  unfold GithubCallbackHandler. intros E. revert E.
  cbv beta iota delta [mbind mret M_bind M_ret call].
  destruct (String.eqb (Values_Get _ "code") "");
    [intros; simplify_eq; simpl; repeat split; auto; done|].
  destruct (String.eqb (Values_Get _ "state") "");
    [intros; simplify_eq; simpl; repeat split; auto; done|].
  destruct (AuthStateExists _ _ w) as [[email [e|]] w1] eqn:EA; cbv beta iota;
    [intros; simplify_eq; simpl; repeat split; auto; done|].
  destruct (exchangeCodeForToken h rt _ w1) as [[[tp err] w2] tex] eqn:EX.
  apply exchangeCodeForToken_calls in EX as (Hval & Hsav & Hreq).
  assert (Hv : forall post : list (event Space KubeDef),
             validatedStates post = [] ->
             validatedStates
               ([EvAuthStateExists (Values_Get (Request.Query r) "state") (email, None)]
                ++ tex ++ post)
             = [Values_Get (Request.Query r) "state"]).
  { intros post Hpost. unfold validatedStates in *. simpl.
    by rewrite omap_app, Hval, Hpost. }
  assert (Hs : forall post : list (event Space KubeDef),
             savedTokens
               ([EvAuthStateExists (Values_Get (Request.Query r) "state") (email, None)]
                ++ tex ++ post)
             = savedTokens post).
  { intros post. unfold savedTokens in *. simpl. by rewrite omap_app, Hsav. }
  assert (Hh : forall post : list (event Space KubeDef),
             httpRequests
               ([EvAuthStateExists (Values_Get (Request.Query r) "state") (email, None)]
                ++ tex ++ post)
             = httpRequests tex ++ httpRequests post).
  { intros post. unfold httpRequests. simpl. by rewrite omap_app. }
  destruct err as [e|]; cbv beta iota.
  - intros; simplify_eq. rewrite Hv, Hs by done. simpl.
    repeat split; auto; done.
  - destruct (SaveTokenPair _ _ _ w2) as [[e|] w3] eqn:ES; cbv beta iota;
      intros; simplify_eq; rewrite Hv, Hs, Hh by done; simpl;
      rewrite app_nil_r;
      (split; [auto|]); (split; [done|]); (split; [done|]);
      intros _; (split; [done|]); intros Hnone; by apply Hreq in Hnone.
Qed.
End ExchangeMore.

Section ExchangeCases.
Import Scenario Cases.

Lemma exchange_failure_and_request_witness :
  (exchangeCodeForToken handler (runtimeStatus 401 "401 Unauthorized") "c0de" tt).1.1.1
  = TokenPair.mk "" "" 0.
Proof.
  apply (proj1 (exchange_failure_and_request handler (runtimeStatus 401 "401 Unauthorized")
                  "c0de" tt _ _ _ _ (triple_eta4 _))).
  discriminate.
Defined.

Lemma exchange_success_witness :
  exists resp result now,
    let lifetime := GithubTokenResponse.ExpiresIn result in
    (exchangeCodeForToken handler runtime "c0de" tt).2
    = [EvHttpDo "POST" (tokenURL handler runtime "c0de") (resp, None); EvNow now] /\
    HttpResponse.StatusCode resp = 200 /\
    json_Decode runtime (HttpResponse.Body resp) = (result, None) /\
    "gho_access" = GithubTokenResponse.AccessToken result /\
    "ghr_refresh" = GithubTokenResponse.RefreshToken result /\
    (- 2 ^ 63 <= now < 2 ^ 63 ->
     3590000001000 = now + wrap64 (lifetime * 1000000000) - 10000000000 /\
     (- 9223372036 <= lifetime <= 9223372036 ->
      3590000001000 = now + lifetime * 1000000000 - 10000000000) /\
     (9223372037 <= lifetime <= 18446744073 -> 3590000001000 < now)).
Proof.
  apply (exchange_success handler runtime "c0de" tt
           (TokenPair.mk "gho_access" "ghr_refresh" 3590000001000) tt).
  reflexivity.
Defined.

Lemma exchange_rejects_status_witness :
  exists e,
    exchangeCodeForToken handler (runtimeStatus 401 "401 Unauthorized") "c0de" tt
    = (TokenPair.mk "" "" 0, Some e, tt,
       [EvHttpDo "POST" (tokenURL handler (runtimeStatus 401 "401 Unauthorized") "c0de")
          (HttpResponse.mk 401 "401 Unauthorized" "{}", None)]) /\
    Error e = "failed to exchange code for token: 401 Unauthorized" /\
    errors_Is e ErrUserNotFound = false.
Proof.
  apply (exchange_rejects_status handler (runtimeStatus 401 "401 Unauthorized") "c0de" tt
           (HttpResponse.mk 401 "401 Unauthorized" "{}") tt);
    [reflexivity | reflexivity | discriminate].
Defined.

Lemma callback_ok_witness :
  let run := GithubCallbackHandler (withDb (knownState None)) runtime
               (callback "c0de" "s-1") tt in
  exists email w1 tp w2 tex,
    AuthStateExists (knownState None) "s-1" tt = ((email, None), w1) /\
    exchangeCodeForToken (withDb (knownState None)) runtime "c0de" w1 = (tp, None, w2, tex) /\
    SaveTokenPair (knownState None) email (TokenPair.AccessToken tp) w2 = (None, run.1.2) /\
    run.2 = EvAuthStateExists "s-1" (email, None)
            :: tex ++ [EvSaveTokenPair email (TokenPair.AccessToken tp) None].
Proof.
  intros run.
  destruct (callback_ok (withDb (knownState None)) runtime (callback "c0de" "s-1") tt
              run.1.1 run.1.2 run.2 (triple_eta run) eq_refl) as (_ & _ & Hex).
  exact Hex.
Defined.

Lemma callback_status_witness :
  let run := GithubCallbackHandler (withDb (knownState (Some errLookup))) runtime
               (callback "c0de" "s-1") tt in
  Response.StatusCode run.1.1 = 500 /\ validatedStates run.2 = ["s-1"].
Proof.
  intros run. split; [reflexivity|].
  apply (proj1 (proj2 (proj2
           (callback_status (withDb (knownState (Some errLookup))) runtime
              (callback "c0de" "s-1") tt run.1.1 run.1.2 run.2 (triple_eta run))))).
  reflexivity.
Defined.
End ExchangeCases.

(** ** Login success, further *)

Section LoginMore.
Context {W Space KubeDef : Type}.
Variable h : Handler W Space KubeDef.

(** X18. When the provider cannot resolve the user the attempt ends
    with status 400 after one log entry carrying the error and the
    intent: no local user is looked up or created and no session is
    established. *)
Theorem login_idp_failure r w u e w1 :
  let intent := Values_Get (Request.Query r) "id" in
  let token := Values_Get (Request.Query r) "token" in
  GetIdpUser (authService h) intent token w = ((u, Some e), w1) ->
  (HandleLoginSuccess h r w).1.1 = Some (WriteHeader 400) /\
  (HandleLoginSuccess h r w).2
  = [EvGetIdpUser intent token (u, Some e);
     EvErrorContext "failed to get user" [("err", Error e); ("intent", intent)]].
Proof.
  simpl. intros E1.
  unfold HandleLoginSuccess, logError.
  cbv beta iota delta [mbind mret M_bind M_ret call].
  rewrite E1. cbv beta iota. run. auto.
Qed.

(** X19. When the local lookup finds the user, no user is created and
    the session is established for the id of the user found, with the
    intent and the token of the request; nothing is written to the
    response and nothing is logged. *)
Theorem login_known_user r w idpUser w1 found w2 :
  let intent := Values_Get (Request.Query r) "id" in
  let token := Values_Get (Request.Query r) "token" in
  GetIdpUser (authService h) intent token w = ((idpUser, None), w1) ->
  GetUserByEmail (authService h) (UserInfo.Email idpUser) w1 = ((found, None), w2) ->
  (HandleLoginSuccess h r w).1.1 = None /\
  (HandleLoginSuccess h r w).2
  = [EvGetIdpUser intent token (idpUser, None);
     EvGetUserByEmail (UserInfo.Email idpUser) (found, None);
     EvLogin (UserInfo.ID found) intent token].
Proof.
  simpl. intros E1 E2.
  unfold HandleLoginSuccess, establishSession, logError.
  cbv beta iota delta [mbind mret M_bind M_ret call].
  rewrite E1. cbv beta iota. rewrite E2. cbv beta iota. simpl. run. auto.
Qed.

Ltac logs_last_call :=
  lazymatch goal with
  | |- exists calls ev e, [?a; _] = _ /\ _ => exists [], a
  | |- exists calls ev e, [?x; ?a; _] = _ /\ _ => exists [x], a
  | |- exists calls ev e, [?x; ?y; ?a; _] = _ /\ _ => exists [x; y], a
  end;
  eexists; repeat split; reflexivity.

(** X20. Every attempt ends in one of two ways.  Either a call to
    the auth service failed: the handler's last two events are that
    call and one log entry, which carries the message of the error the
    call returned and the intent, under [failed to create user] for
    [CreateUser] and [failed to get user] otherwise; nothing else is
    logged, status 400 is written and no session is established.  Or
    nothing is written, nothing is logged and exactly one session is
    established, for the intent and the token of the request. *)
Theorem login_outcome r w :
  let intent := Values_Get (Request.Query r) "id" in
  let token := Values_Get (Request.Query r) "token" in
  let out := HandleLoginSuccess h r w in
  (out.1.1 = Some (WriteHeader 400) /\ sessions out.2 = [] /\
   exists calls ev e,
     out.2 = calls ++ [ev; EvErrorContext (failureMessage ev)
                             [("err", Error e); ("intent", intent)]] /\
     callError ev = Some e /\
     logged calls = [] /\
     logged out.2 = [(failureMessage ev, [("err", Error e); ("intent", intent)])]) \/
  (out.1.1 = None /\ logged out.2 = [] /\
   exists id, sessions out.2 = [(id, intent, token)]).
Proof.
  simpl. unfold HandleLoginSuccess, establishSession, logError, errors_Is_opt.
  run; simpl;
    first [ right; by eauto
          | left; split; [reflexivity|]; split; [reflexivity|];
            logs_last_call ].
Qed.

(** X21. A session is only ever established for a user the local
    store returned, from the lookup or from the creation; the lookup
    is by the email the provider returned, and the creation happens
    only after a lookup that failed. *)
Theorem login_session_origin r w :
  let tr := (HandleLoginSuccess h r w).2 in
  (forall id intent token,
     In (EvLogin id intent token) tr ->
     (exists email u, In (EvGetUserByEmail email (u, None)) tr /\ id = UserInfo.ID u) \/
     (exists arg u, In (EvCreateUser arg (u, None)) tr /\ id = UserInfo.ID u)) /\
  (forall email res,
     In (EvGetUserByEmail email res) tr ->
     exists intent token u,
       In (EvGetIdpUser intent token (u, None)) tr /\ email = UserInfo.Email u) /\
  (forall arg res,
     In (EvCreateUser arg res) tr ->
     exists email e, In (EvGetUserByEmail email (arg, Some e)) tr /\
                     errors_Is e ErrUserNotFound = true).
Proof.
  simpl. unfold HandleLoginSuccess, establishSession, logError, errors_Is_opt.
  run; simpl; (split; [|split]); intros;
    repeat match goal with
      | Hin : _ \/ _ |- _ => destruct Hin as [Hin | Hin]
      | Hin : False |- _ => destruct Hin
      | Hin : _ = _ |- _ => first [discriminate Hin | injection Hin as ? ? ?; subst | injection Hin as ? ?; subst]
      end;
    first [ left; by eauto 10 | right; by eauto 10 | by eauto 10 ].
Qed.

Lemma error_eqb_refl (e : error) : error_eqb e e = true.
Proof.
  induction e as [p s | msg e IH]; simpl.
  - by rewrite Pos.eqb_refl, String.eqb_refl.
  - by rewrite String.eqb_refl, IH.
Qed.

Lemma errors_Is_wrapped (msgs : list string) (target : error) :
  errors_Is (foldr wrapError target msgs) target = true.
Proof.
  induction msgs as [|m msgs IH]; simpl.
  - destruct target; cbn [errors_Is]; by rewrite error_eqb_refl.
  - rewrite IH. apply orb_true_r.
Qed.

(** X22. The test for user-not-found looks through wrapping: a lookup
    error that wraps [ErrUserNotFound], however deep, leads to the
    creation of a user like the bare error does, not to a failure of
    the attempt. *)
Theorem login_wrapped_not_found r w idpUser w1 found msgs w2 :
  let intent := Values_Get (Request.Query r) "id" in
  let token := Values_Get (Request.Query r) "token" in
  GetIdpUser (authService h) intent token w = ((idpUser, None), w1) ->
  GetUserByEmail (authService h) (UserInfo.Email idpUser) w1
  = ((found, Some (foldr wrapError ErrUserNotFound msgs)), w2) ->
  createdFrom (HandleLoginSuccess h r w).2 = [found] /\
  lookedUp (HandleLoginSuccess h r w).2 = [UserInfo.Email idpUser].
Proof.
  simpl. intros E1 E2.
  destruct (HandleLoginSuccess_not_found h r w idpUser w1 found _ w2 E1 E2
              (errors_Is_wrapped msgs ErrUserNotFound)) as [Hc _].
  split; [exact Hc|]. clear Hc.
  unfold HandleLoginSuccess, establishSession, logError.
  cbv beta iota delta [mbind mret M_bind M_ret call].
  rewrite E1. cbv beta iota. rewrite E2. cbv beta iota.
  unfold errors_Is_opt. rewrite errors_Is_wrapped. simpl. run; reflexivity.
Qed.
End LoginMore.

Section LoginCases.
Import Scenario Cases.

Lemma login_idp_failure_witness :
  let h := withAuthService (service (UserInfo.mk "" "" "", Some errIdp)
                              (localAlice, None) (localAlice, None)) in
  (HandleLoginSuccess h loginSuccess tt).1.1 = Some (WriteHeader 400) /\
  (HandleLoginSuccess h loginSuccess tt).2
  = [EvGetIdpUser "intent-1" "tok-1" (UserInfo.mk "" "" "", Some errIdp);
     EvErrorContext "failed to get user"
       [("err", "idp unreachable"); ("intent", "intent-1")]].
Proof.
  intros h.
  apply (login_idp_failure h loginSuccess tt (UserInfo.mk "" "" "") errIdp tt).
  reflexivity.
Defined.

Lemma login_known_user_witness :
  let h := withAuthService (service (alice, None) (localAlice, None)
                              (localAlice, Some errCreate)) in
  (HandleLoginSuccess h loginSuccess tt).1.1 = None /\
  (HandleLoginSuccess h loginSuccess tt).2
  = [EvGetIdpUser "intent-1" "tok-1" (alice, None);
     EvGetUserByEmail "alice@example.com" (localAlice, None);
     EvLogin "local-7" "intent-1" "tok-1"].
Proof.
  intros h.
  apply (login_known_user h loginSuccess tt alice tt localAlice tt); reflexivity.
Defined.

Lemma login_wrapped_not_found_witness :
  let h := withAuthService
             (service (alice, None)
                (UserInfo.mk "" "" "",
                 Some (wrapError "lookup: user not found" ErrUserNotFound))
                (localAlice, None)) in
  createdFrom (HandleLoginSuccess h loginSuccess tt).2 = [UserInfo.mk "" "" ""] /\
  lookedUp (HandleLoginSuccess h loginSuccess tt).2 = ["alice@example.com"].
Proof.
  intros h.
  apply (login_wrapped_not_found h loginSuccess tt alice tt (UserInfo.mk "" "" "")
           ["lookup: user not found"] tt); reflexivity.
Defined.

Lemma login_session_origin_witness :
  (exists email u,
     In (EvGetUserByEmail email (u, None))
        (HandleLoginSuccess
           (withAuthService (service (alice, None) (localAlice, None)
                               (localAlice, Some errCreate)))
           loginSuccess tt).2 /\
     "local-7" = UserInfo.ID u) \/
  (exists arg u,
     In (EvCreateUser arg (u, None))
        (HandleLoginSuccess
           (withAuthService (service (alice, None) (localAlice, None)
                               (localAlice, Some errCreate)))
           loginSuccess tt).2 /\
     "local-7" = UserInfo.ID u).
Proof.
  apply (proj1 (login_session_origin
                  (withAuthService (service (alice, None) (localAlice, None)
                                      (localAlice, Some errCreate)))
                  loginSuccess tt) "local-7" "intent-1" "tok-1").
  vm_compute. do 2 right. left. reflexivity.
Defined.
End LoginCases.
